(** * grpc_microservices: the monitoring service (service3)

    A shallow embedding of the bounded session pool (package [db] of
    service3: [DBPool], [BeginTx], [ReleaseTx]) and of the monitoring server
    built on it (package [main] of service3: [CreateUser], [GetUser],
    [GetServiceMetrics], [monitorDatabase]), followed by the properties of
    the specification checked against that code.  Further parts follow:
    [GetDatabaseMetrics], [CreateUser] of the user service (service1), the
    dashboard and its [WebSocketService] (frontend), and the accounting of
    the load test.

    Conventions.
    - Go's [int] and [int64] are 64-bit two's complement integers, [uint64]
      is a 64-bit unsigned integer; all are carried by [Z] and every
      arithmetic operation of the source is followed by its wrap-around.
    - Go's [float64] is IEEE-754 binary64, carried by [spec_float] with
      precision 53 and maximal exponent 1024.
    - The database, the clock and the logger are the environment: what the
      database answers and how long a request took are arguments of the
      functions below, and the calls made to the database and the lines
      written to the log are returned as a list of events, in program order.
    - A region of the source guarded by a mutex is one definition here; the
      concurrent executions of the program are the interleavings of these
      atomic regions. *)

From Stdlib Require Import ZArith List String Bool Lia PeanoNat Permutation.
From Stdlib Require Import Floats.SpecFloat.
From Stdlib Require Import DecimalString.
Import ListNotations.

Local Open Scope string_scope.
Local Open Scope list_scope.
Local Open Scope Z_scope.

(** ** Machine integers *)

Module GoInt.

Definition min_int : Z := - 2 ^ 63.
Definition max_int : Z := 2 ^ 63 - 1.
Definition max_uint64 : Z := 2 ^ 64 - 1.

(** Result of an [int] (or [int64]) operation whose exact value is [z]. *)
Definition wrap_int (z : Z) : Z := (z + 2 ^ 63) mod 2 ^ 64 - 2 ^ 63.

(** Result of a [uint64] operation whose exact value is [z]; also the
    conversion [uint64(z)] of a signed value. *)
Definition wrap_uint64 (z : Z) : Z := z mod 2 ^ 64.

Definition in_int (z : Z) : Prop := min_int <= z <= max_int.
Definition in_uint64 (z : Z) : Prop := 0 <= z <= max_uint64.

(** Go's [float64] and the conversions [float64(x)] of an integer [x]
    (rounded to the nearest representable value, ties to even). *)
Definition float64 : Type := spec_float.
Definition float64_of_int (x : Z) : float64 := binary_normalize 53 1024 x 0 false.
Definition float64_div (x y : float64) : float64 := SFdiv 53 1024 x y.

End GoInt.
Import GoInt.

(** ** Errors ([service3/db/errors.go], and those of [database/sql]) *)

Inductive error : Type :=
| ErrTooManyConnections
| ErrConnectionTimeout
| ErrTransactionFailed
| ErrInvalidOperation
| ErrDriver (msg : string)      (* an error returned by database/sql or the driver *)
| ErrFormatted (msg : string).  (* an error built by fmt.Errorf *)

(** The method [Error()] of the interface [error]. *)
Definition Error (e : error) : string :=
  match e with
  | ErrTooManyConnections => "too many active database connections"
  | ErrConnectionTimeout => "database connection timeout"
  | ErrTransactionFailed => "transaction failed"
  | ErrInvalidOperation => "invalid database operation"
  | ErrDriver msg => msg
  | ErrFormatted msg => msg
  end.

(** ** Events: calls to the database handle and log lines *)

(** A [*sql.Tx]. *)
Inductive Tx : Type := TxHandle (id : nat).

Inductive Level : Type := InfoLevel | WarnLevel | ErrorLevel.

(** The value of a field attached to a log line. *)
Inductive Field : Type :=
| FString (s : string)
| FInt (z : Z)
| FFloat (f : float64).

Inductive Event : Type :=
| DBBegin                                   (* p.db.Begin() *)
| DBQueryRow (tx : Tx) (query : string)     (* tx.QueryRow(query, ...).Scan(...) *)
| DBCommit (tx : Tx)                        (* tx.Commit() *)
| DBRollback (tx : Tx)                      (* tx.Rollback() *)
| Log (lvl : Level) (msg : string) (fields : list (string * Field)).
                                            (* logrus.WithFields(..).Info / Error, logrus.Errorf *)

(** ** The bounded session pool ([DBPool]) *)

(** The fields [db], [mutex] and the three timeouts carry no state of their
    own in this model: [db] is the environment, [mutex] delimits the atomic
    regions, the timeouts are never read. *)
Record DBPool : Type := mkDBPool {
  maxConns : Z;
  activeConns : Z
}.

Definition set_activeConns (p : DBPool) (a : Z) : DBPool :=
  {| maxConns := maxConns p; activeConns := a |}.

(** [NewDBPool]: [opened] is the result of [sql.Open]. *)
Definition NewDBPool (opened : option error) (maxConns : Z) : DBPool + error :=
  match opened with
  | Some err => inr err
  | None => inl {| maxConns := maxConns; activeConns := 0 |}
  end.

(** The pool a successful [NewDBPool] returns. *)
Definition newPool (maxConns : Z) : DBPool :=
  {| maxConns := maxConns; activeConns := 0 |}.

(** [BeginTx], first locked region: the admission check and the increment.
    [Some err] when the caller is turned away. *)
Definition admission (p : DBPool) : DBPool * option error :=
  if activeConns p >=? maxConns p
  then (p, Some ErrTooManyConnections)
  else (set_activeConns p (wrap_int (activeConns p + 1)), None).

(** [BeginTx], second locked region: taken when [p.db.Begin()] failed. *)
Definition undoAdmit (p : DBPool) : DBPool :=
  set_activeConns p (wrap_int (activeConns p - 1)).

(** [BeginTx]. [begun] is what [p.db.Begin()] answers if it is called. *)
Definition BeginTx (p : DBPool) (begun : Tx + error)
  : DBPool * (Tx + error) * list Event :=
  match admission p with
  | (p1, Some err) => (p1, inr err, [])
  | (p1, None) =>
      match begun with
      | inr err => (undoAdmit p1, inr err, [DBBegin])
      | inl tx => (p1, inl tx, [DBBegin])
      end
  end.

(** [ReleaseTx], the decrement under the lock. *)
Definition releaseSlot (p : DBPool) : DBPool :=
  set_activeConns p (wrap_int (activeConns p - 1)).

(** [ReleaseTx]. [err] is the outcome handed in by the caller, [ended] is
    what [tx.Rollback()] or [tx.Commit()] answers. *)
Definition ReleaseTx (p : DBPool) (tx : Tx) (err : option error)
           (ended : option error) : DBPool * option error * list Event :=
  let p1 := releaseSlot p in
  match err with
  | Some e =>
      (p1, ended,
       [Log ErrorLevel "Rolling back transaction due to error"
            [("error", FString (Error e))];
        DBRollback tx])
  | None => (p1, ended, [DBCommit tx])
  end.

(** *** The pool seen by concurrent callers

    The lock of the pool is released between the admission and the answer of
    [p.db.Begin()], so other callers can run in between.  A concurrent
    execution is a sequence of the atomic regions of [BeginTx] and
    [ReleaseTx]. *)
Inductive PoolStep : Type :=
| StepAdmit        (* BeginTx: lock, admission check, increment, unlock *)
| StepBeginOk      (* BeginTx: p.db.Begin() answered a transaction *)
| StepBeginFail    (* BeginTx: p.db.Begin() failed; lock, decrement, unlock *)
| StepRelease.     (* ReleaseTx, whatever the outcome handed in *)

Definition pool_step (p : DBPool) (st : PoolStep) : DBPool :=
  match st with
  | StepAdmit => fst (admission p)
  | StepBeginOk => p
  | StepBeginFail => undoAdmit p
  | StepRelease => releaseSlot p
  end.

(** The pool at every observation point of an execution: before the first
    step and after each step. *)
Fixpoint observations (p : DBPool) (steps : list PoolStep) : list DBPool :=
  p :: match steps with
       | [] => []
       | st :: rest => observations (pool_step p st) rest
       end.

(** What the callers of the pool hold: [pending] callers were admitted and
    wait for [p.db.Begin()], [held] sessions were handed out and are not yet
    released.  The pool itself keeps no such record. *)
Record Callers : Type := mkCallers {
  pending : nat;
  held : nat
}.

(** The callers after a step, [None] when no caller can take the step: only
    an admitted caller receives the answer of [p.db.Begin()], and only a
    session that is held is released. *)
Definition callers_step (p : DBPool) (c : Callers) (st : PoolStep)
  : option Callers :=
  match st with
  | StepAdmit =>
      match snd (admission p) with
      | Some _ => Some c
      | None => Some {| pending := S (pending c); held := held c |}
      end
  | StepBeginOk =>
      match pending c with
      | O => None
      | S n => Some {| pending := n; held := S (held c) |}
      end
  | StepBeginFail =>
      match pending c with
      | O => None
      | S n => Some {| pending := n; held := held c |}
      end
  | StepRelease =>
      match held c with
      | O => None
      | S n => Some {| pending := pending c; held := n |}
      end
  end.

(** An execution in which every session is released at most once, and only
    after it was acquired. *)
Fixpoint scoped (p : DBPool) (c : Callers) (steps : list PoolStep) : bool :=
  match steps with
  | [] => true
  | st :: rest =>
      match callers_step p c st with
      | None => false
      | Some c' => scoped (pool_step p st) c' rest
      end
  end.

(** The pool with maximum [K] and its callers agree: every unit of the
    active count is a caller that waits for the database or holds a
    session. *)
Definition accounted (K : Z) (p : DBPool) (c : Callers) : Prop :=
  maxConns p = K /\
  activeConns p = Z.of_nat (pending c + held c) /\
  activeConns p <= K.

(** The invariant of the specification. *)
Definition pool_bounded (p : DBPool) : Prop :=
  0 <= activeConns p <= maxConns p.

(** The type of the fields: two [int]. *)
Definition wf_DBPool (p : DBPool) : Prop :=
  in_int (maxConns p) /\ in_int (activeConns p).

(** [txs] are acquired one after the other, none is released. *)
Fixpoint acquireAll (p : DBPool) (txs : list Tx) : DBPool * list (Tx + error) :=
  match txs with
  | [] => (p, [])
  | tx :: rest =>
      let '(p1, r, _) := BeginTx p (inl tx) in
      let '(p2, rs) := acquireAll p1 rest in
      (p2, r :: rs)
  end.

(** ** Wire messages ([service3/proto]) *)

Module pb.

Record CreateUserRequest : Type := {
  Name : string;
  Email : string
}.

Record CreateUserResponse : Type := {
  UserId : Z;
  Status : string;
  Error : string
}.

Record GetUserRequest : Type := {
  GetUser_UserId : Z
}.

Record GetUserResponse : Type := {
  User_UserId : Z;
  User_Name : string;
  User_Email : string;
  User_Error : string
}.

Record GetMetricsRequest : Type := {
  ServiceName : string
}.

Record ServiceMetricsResponse : Type := {
  TotalRequests : Z;
  SuccessfulRequests : Z;
  FailedRequests : Z;
  AverageLatencyMs : float64
}.

End pb.

(** ** The monitoring server *)

Record Metrics : Type := mkMetrics {
  totalRequests : Z;
  successfulRequests : Z;
  failedRequests : Z;
  totalLatency : Z
}.

(** [&Metrics{}]. *)
Definition Metrics0 : Metrics :=
  {| totalRequests := 0; successfulRequests := 0;
     failedRequests := 0; totalLatency := 0 |}.

(** The type of the fields: four [uint64]. *)
Definition wf_Metrics (m : Metrics) : Prop :=
  in_uint64 (totalRequests m) /\ in_uint64 (successfulRequests m) /\
  in_uint64 (failedRequests m) /\ in_uint64 (totalLatency m).

Record server : Type := mkServer {
  userPool : DBPool;
  orderPool : DBPool;
  userService : Metrics;     (* s.metrics.userService *)
  orderService : Metrics     (* s.metrics.orderService *)
}.

Definition set_userPool (s : server) (p : DBPool) : server :=
  {| userPool := p; orderPool := orderPool s;
     userService := userService s; orderService := orderService s |}.

Definition set_userService (s : server) (m : Metrics) : server :=
  {| userPool := userPool s; orderPool := orderPool s;
     userService := m; orderService := orderService s |}.

(** The server [main] builds: two pools of 10 sessions, counters at zero. *)
Definition newServer : server :=
  {| userPool := newPool 10; orderPool := newPool 10;
     userService := Metrics0; orderService := Metrics0 |}.

(** What the environment answers during one handler invocation. *)
Record TxEnv (A : Type) : Type := mkTxEnv {
  env_begun : Tx + error;       (* p.db.Begin() *)
  env_scanned : A + error;      (* tx.QueryRow(...).Scan(...) *)
  env_elapsed : Z;              (* time.Since(start).Milliseconds(), an int64 *)
  env_ended : option error      (* tx.Commit() or tx.Rollback() *)
}.
Arguments mkTxEnv {A}.
Arguments env_begun {A}.
Arguments env_scanned {A}.
Arguments env_elapsed {A}.
Arguments env_ended {A}.

(** The region of [CreateUser] and [GetUser] under [s.metrics.mutex] when
    [BeginTx] failed:
      totalRequests++; failedRequests++ *)
Definition countBeginFailure (m : Metrics) : Metrics :=
  {| totalRequests := wrap_uint64 (totalRequests m + 1);
     successfulRequests := successfulRequests m;
     failedRequests := wrap_uint64 (failedRequests m + 1);
     totalLatency := totalLatency m |}.

(** The region of [CreateUser] and [GetUser] under [s.metrics.mutex] once the
    statement has run, [err] being its result:
      totalRequests++
      totalLatency += uint64(time.Since(start).Milliseconds())
      if err != nil { failedRequests++ ; return }
      successfulRequests++ *)
Definition countStatement (m : Metrics) (elapsed : Z) (err : option error)
  : Metrics :=
  let total := wrap_uint64 (totalRequests m + 1) in
  let latency := wrap_uint64 (totalLatency m + wrap_uint64 elapsed) in
  match err with
  | Some _ =>
      {| totalRequests := total;
         successfulRequests := successfulRequests m;
         failedRequests := wrap_uint64 (failedRequests m + 1);
         totalLatency := latency |}
  | None =>
      {| totalRequests := total;
         successfulRequests := wrap_uint64 (successfulRequests m + 1);
         failedRequests := failedRequests m;
         totalLatency := latency |}
  end.

(** The [error] half of a Go result [(value, error)]. *)
Definition err_of {A : Type} (r : A + error) : option error :=
  match r with
  | inl _ => None
  | inr e => Some e
  end.

Definition insertUser : string :=
  "INSERT INTO users (name, email) VALUES ($1, $2) RETURNING id".

Definition selectUser : string :=
  "SELECT name, email FROM users WHERE id = $1".

(** [CreateUser].  The result is the updated server, the pair of a response
    and an error the method returns, and the events. *)
Definition CreateUser (s : server) (req : pb.CreateUserRequest) (env : TxEnv Z)
  : server * (option pb.CreateUserResponse * option error) * list Event :=
  let ev0 := [Log InfoLevel "Creating user"
                [("name", FString (pb.Name req));
                 ("email", FString (pb.Email req))]] in
  (* tx, err := s.userPool.BeginTx() *)
  let '(pool1, began, ev1) := BeginTx (userPool s) (env_begun env) in
  let s1 := set_userPool s pool1 in
  match began with
  | inr err =>
      let s2 := set_userService s1 (countBeginFailure (userService s1)) in
      (s2,
       (Some {| pb.UserId := 0; pb.Status := "error";
                pb.Error := Error err |}, None),
       ev0 ++ ev1 ++
       [Log ErrorLevel "Failed to begin transaction"
          [("error", FString (Error err))]])
  | inl tx =>
      (* defer s.userPool.ReleaseTx(tx, err): the arguments of a deferred
         call are evaluated when the defer statement is executed, and err
         is nil on this branch *)
      let deferred : Tx * option error := (tx, None) in
      (* err = tx.QueryRow(...).Scan(&userID) *)
      let ev2 := [DBQueryRow tx insertUser] in
      let err := err_of (env_scanned env) in
      let s2 :=
        set_userService s1
          (countStatement (userService s1) (env_elapsed env) err) in
      let '(resp, ev3) :=
        match env_scanned env with
        | inr e =>
            ({| pb.UserId := 0; pb.Status := "error"; pb.Error := Error e |},
             [Log ErrorLevel "Failed to create user"
                [("error", FString (Error e))]])
        | inl userID =>
            ({| pb.UserId := userID; pb.Status := "success"; pb.Error := "" |},
             [Log InfoLevel "User created successfully"
                [("user_id", FInt userID)]])
        end in
      (* on return the deferred calls run, last deferred first: the metrics
         mutex is unlocked, then ReleaseTx is called; its result is dropped *)
      let '(pool2, _, ev4) :=
        ReleaseTx (userPool s2) (fst deferred) (snd deferred) (env_ended env) in
      (set_userPool s2 pool2, (Some resp, None),
       ev0 ++ ev1 ++ ev2 ++ ev3 ++ ev4)
  end.

(** [GetUser]. *)
Definition GetUser (s : server) (req : pb.GetUserRequest)
           (env : TxEnv (string * string))
  : server * (option pb.GetUserResponse * option error) * list Event :=
  let ev0 := [Log InfoLevel "Getting user"
                [("user_id", FInt (pb.GetUser_UserId req))]] in
  let '(pool1, began, ev1) := BeginTx (userPool s) (env_begun env) in
  let s1 := set_userPool s pool1 in
  match began with
  | inr err =>
      let s2 := set_userService s1 (countBeginFailure (userService s1)) in
      (s2,
       (Some {| pb.User_UserId := 0; pb.User_Name := ""; pb.User_Email := "";
                pb.User_Error := Error err |}, None),
       ev0 ++ ev1 ++
       [Log ErrorLevel "Failed to begin transaction"
          [("error", FString (Error err))]])
  | inl tx =>
      (* defer s.userPool.ReleaseTx(tx, err), with err nil as in CreateUser *)
      let deferred : Tx * option error := (tx, None) in
      let ev2 := [DBQueryRow tx selectUser] in
      let err := err_of (env_scanned env) in
      let s2 :=
        set_userService s1
          (countStatement (userService s1) (env_elapsed env) err) in
      let '(resp, ev3) :=
        match env_scanned env with
        | inr e =>
            ({| pb.User_UserId := 0; pb.User_Name := ""; pb.User_Email := "";
                pb.User_Error := Error e |},
             [Log ErrorLevel "Failed to get user"
                [("error", FString (Error e))]])
        | inl (name, email) =>
            ({| pb.User_UserId := pb.GetUser_UserId req; pb.User_Name := name;
                pb.User_Email := email; pb.User_Error := "" |},
             [Log InfoLevel "User retrieved successfully"
                [("user_id", FInt (pb.GetUser_UserId req));
                 ("name", FString name); ("email", FString email)]])
        end in
      let '(pool2, _, ev4) :=
        ReleaseTx (userPool s2) (fst deferred) (snd deferred) (env_ended env) in
      (set_userPool s2 pool2, (Some resp, None),
       ev0 ++ ev1 ++ ev2 ++ ev3 ++ ev4)
  end.

(** The invariant of the counters, as Go evaluates it on [uint64]. *)
Definition balanced (m : Metrics) : Prop :=
  totalRequests m = wrap_uint64 (successfulRequests m + failedRequests m).

(** One critical section on the counters of a service, as one of the two
    regions above. *)
Inductive MetricsUpdate : Type :=
| BeginFailure
| Statement (elapsed : Z) (err : option error).

Definition applyUpdate (m : Metrics) (u : MetricsUpdate) : Metrics :=
  match u with
  | BeginFailure => countBeginFailure m
  | Statement elapsed err => countStatement m elapsed err
  end.

(** The critical sections are serialised by [s.metrics.mutex]: concurrent
    handlers update the counters in some order. *)
Definition applyUpdates (m : Metrics) (us : list MetricsUpdate) : Metrics :=
  fold_left applyUpdate us m.

(** The update records a successful request. *)
Definition succeeded (u : MetricsUpdate) : bool :=
  match u with
  | Statement _ None => true
  | _ => false
  end.

Definition successes (us : list MetricsUpdate) : Z :=
  Z.of_nat (List.length (filter succeeded us)).

Definition failures (us : list MetricsUpdate) : Z :=
  Z.of_nat (List.length (filter (fun u => negb (succeeded u)) us)).

(** How a handler invocation ends, read off the pool it runs against and
    the answers of the environment. *)
Inductive Outcome : Type :=
| BeginFailed (e : error)        (* BeginTx returned e *)
| StatementFailed (e : error)    (* the statement returned e *)
| Succeeded.

Definition outcomeOf {A : Type} (p : DBPool) (env : TxEnv A) : Outcome :=
  match BeginTx p (env_begun env) with
  | (_, inr e, _) => BeginFailed e
  | (_, inl _, _) =>
      match env_scanned env with
      | inr e => StatementFailed e
      | inl _ => Succeeded
      end
  end.

(** The critical section a handler invocation runs on the counters. *)
Definition updateOf {A : Type} (p : DBPool) (env : TxEnv A) : MetricsUpdate :=
  match outcomeOf p env with
  | BeginFailed _ => BeginFailure
  | StatementFailed e => Statement (env_elapsed env) (Some e)
  | Succeeded => Statement (env_elapsed env) None
  end.

(** [GetServiceMetrics]. *)
Definition GetServiceMetrics (s : server) (req : pb.GetMetricsRequest)
  : option pb.ServiceMetricsResponse * option error :=
  let selected :=
    if String.eqb (pb.ServiceName req) "user" then Some (userService s)
    else if String.eqb (pb.ServiceName req) "order" then Some (orderService s)
    else None in
  match selected with
  | None =>
      (None,
       Some (ErrFormatted (String.append "unknown service: " (pb.ServiceName req))))
  | Some metrics =>
      (Some {| pb.TotalRequests := totalRequests metrics;
               pb.SuccessfulRequests := successfulRequests metrics;
               pb.FailedRequests := failedRequests metrics;
               pb.AverageLatencyMs :=
                 float64_div (float64_of_int (totalLatency metrics))
                             (float64_of_int (successfulRequests metrics)) |},
       None)
  end.

(** ** The database poller ([monitorDatabase]) *)

(** What the environment answers during one cycle of the poller. *)
Record PollEnv : Type := mkPollEnv {
  poll_begun : Tx + error;               (* p.db.Begin() *)
  poll_activeConnections : Z + error;    (* first row.Scan *)
  poll_dbSize : Z + error;               (* second row.Scan *)
  poll_ended : option error              (* tx.Commit() or tx.Rollback() *)
}.

(** How the body of a loop hands control back: [Continue] for a [continue]
    statement or the end of the body, [Exit] for anything that leaves the
    loop. *)
Inductive Control : Type := Continue | Exit.

Definition countActive : string :=
  "SELECT count(*) FROM pg_stat_activity WHERE state = 'active'".

Definition databaseSize : string :=
  "SELECT pg_database_size(current_database())".

Definition databaseMetrics : string := "Database Metrics".

(** The body of the loop of [monitorDatabase]: one sampling cycle. *)
Definition monitorDatabaseCycle (serviceName : string) (dbPool : DBPool)
           (env : PollEnv) : DBPool * list Event * Control :=
  let '(p1, began, ev1) := BeginTx dbPool (poll_begun env) in
  match began with
  | inr err =>
      (p1,
       ev1 ++
       [Log ErrorLevel
          (String.append serviceName
             (String.append ": Failed to begin transaction: " (Error err))) []],
       Continue)
  | inl tx =>
      let ev2 := [DBQueryRow tx countActive] in
      match poll_activeConnections env with
      | inr err =>
          let '(p2, _, ev3) := ReleaseTx p1 tx (Some err) (poll_ended env) in
          (p2,
           ev1 ++ ev2 ++
           [Log ErrorLevel
              (String.append serviceName
                 (String.append ": Failed to get active connections: "
                    (Error err))) []] ++ ev3,
           Continue)
      | inl activeConnections =>
          let ev4 := [DBQueryRow tx databaseSize] in
          match poll_dbSize env with
          | inr err =>
              let '(p2, _, ev5) := ReleaseTx p1 tx (Some err) (poll_ended env) in
              (p2,
               ev1 ++ ev2 ++ ev4 ++
               [Log ErrorLevel
                  (String.append serviceName
                     (String.append ": Failed to get database size: "
                        (Error err))) []] ++ ev5,
               Continue)
          | inl dbSize =>
              let '(p2, released, ev6) :=
                ReleaseTx p1 tx None (poll_ended env) in
              match released with
              | Some err =>
                  (p2,
                   ev1 ++ ev2 ++ ev4 ++ ev6 ++
                   [Log ErrorLevel
                      (String.append serviceName
                         (String.append ": Failed to release transaction: "
                            (Error err))) []],
                   Continue)
              | None =>
                  (p2,
                   ev1 ++ ev2 ++ ev4 ++ ev6 ++
                   [Log InfoLevel databaseMetrics
                      [("service", FString serviceName);
                       ("active_connections", FInt activeConnections);
                       ("database_size_mb",
                        FFloat (float64_div (float64_of_int dbSize)
                                  (float64_of_int (1024 * 1024))))]],
                   Continue)
              end
          end
      end
  end.

(** [monitorDatabase]: the loop over the ticks of the ticker; the events of
    each cycle that ran, in order. *)
Fixpoint monitorDatabase (serviceName : string) (dbPool : DBPool)
         (ticks : list PollEnv) : DBPool * list (list Event) :=
  match ticks with
  | [] => (dbPool, [])
  | env :: rest =>
      let '(p1, ev, control) := monitorDatabaseCycle serviceName dbPool env in
      match control with
      | Exit => (p1, [ev])
      | Continue =>
          let '(p2, evs) := monitorDatabase serviceName p1 rest in
          (p2, ev :: evs)
      end
  end.

(** [go monitorDatabase("User Service", srv.userPool)] in [main]. *)
Definition monitorUserDatabase (s : server) (ticks : list PollEnv)
  : server * list (list Event) :=
  let '(p, evs) := monitorDatabase "User Service" (userPool s) ticks in
  (set_userPool s p, evs).

(** The error of the first introspection read that fails in a cycle. *)
Definition readError (env : PollEnv) : option error :=
  match poll_activeConnections env with
  | inr e => Some e
  | inl _ => err_of (poll_dbSize env)
  end.

(** ** Reading a list of events *)

(** The sessions released in [ev], each with the way it was ended:
    [true] for a commit, [false] for a rollback. *)
Fixpoint releases (ev : list Event) : list (Tx * bool) :=
  match ev with
  | [] => []
  | DBCommit tx :: rest => (tx, true) :: releases rest
  | DBRollback tx :: rest => (tx, false) :: releases rest
  | _ :: rest => releases rest
  end.

(** The samples published in [ev]. *)
Fixpoint samples (ev : list Event) : list (list (string * Field)) :=
  match ev with
  | [] => []
  | Log InfoLevel msg fields :: rest =>
      if String.eqb msg databaseMetrics then fields :: samples rest
      else samples rest
  | _ :: rest => samples rest
  end.

(** The lines logged at error level in [ev]. *)
Fixpoint errorLines (ev : list Event) : list string :=
  match ev with
  | [] => []
  | Log ErrorLevel msg _ :: rest => msg :: errorLines rest
  | _ :: rest => errorLines rest
  end.

(** [float64] values that are numbers: neither NaN nor an infinity. *)
Definition is_number (f : float64) : bool :=
  match f with
  | S754_zero _ | S754_finite _ _ _ => true
  | S754_infinity _ | S754_nan => false
  end.

(** ** Further parts of the repository *)

(** *** The pool along an execution *)

(** The pool after the steps of an execution. *)
Definition pool_after (p : DBPool) (steps : list PoolStep) : DBPool :=
  fold_left pool_step steps p.

(** The callers after the steps of an execution, [None] when the execution
    is not scoped. *)
Fixpoint callers_after (p : DBPool) (c : Callers) (steps : list PoolStep)
  : option Callers :=
  match steps with
  | [] => Some c
  | st :: rest =>
      match callers_step p c st with
      | None => None
      | Some c' => callers_after (pool_step p st) c' rest
      end
  end.

(** The calls made to the database in [ev], in order. *)
Fixpoint dbCalls (ev : list Event) : list Event :=
  match ev with
  | [] => []
  | Log _ _ _ :: rest => dbCalls rest
  | call :: rest => call :: dbCalls rest
  end.

(** *** [GetDatabaseMetrics] (service3) *)

Definition set_orderPool (s : server) (p : DBPool) : server :=
  {| userPool := userPool s; orderPool := p;
     userService := userService s; orderService := orderService s |}.

(** [pb.DatabaseMetricsResponse]. *)
Record DatabaseMetricsResponse : Type := {
  ActiveConnections : Z;         (* int32 *)
  DatabaseSizeMb : float64
}.

(** The pool [GetDatabaseMetrics] and the pollers work on. *)
Inductive PoolName : Type := UserPool | OrderPool.

Definition poolOf (s : server) (n : PoolName) : DBPool :=
  match n with
  | UserPool => userPool s
  | OrderPool => orderPool s
  end.

Definition set_poolOf (s : server) (n : PoolName) (p : DBPool) : server :=
  match n with
  | UserPool => set_userPool s p
  | OrderPool => set_orderPool s p
  end.

(** The [switch req.ServiceName] of [GetDatabaseMetrics]. *)
Definition selectPool (name : string) : option PoolName :=
  if String.eqb name "user" then Some UserPool
  else if String.eqb name "order" then Some OrderPool
  else None.

(** [GetDatabaseMetrics].  The answers of the environment are those of one
    cycle of the poller: the same two reads are made. *)
Definition GetDatabaseMetrics (s : server) (req : pb.GetMetricsRequest)
           (env : PollEnv)
  : server * (option DatabaseMetricsResponse * option error) * list Event :=
  match selectPool (pb.ServiceName req) with
  | None =>
      (s,
       (None,
        Some (ErrFormatted
                (String.append "unknown service: " (pb.ServiceName req)))),
       [])
  | Some n =>
      (* tx, err := pool.BeginTx() *)
      let '(p1, began, ev1) := BeginTx (poolOf s n) (poll_begun env) in
      match began with
      | inr err => (set_poolOf s n p1, (None, Some err), ev1)
      | inl tx =>
          (* defer pool.ReleaseTx(tx, err), with err nil at this point; the
             two err of the reads below are declared in their if statements *)
          let deferred : Tx * option error := (tx, None) in
          let ev2 := [DBQueryRow tx countActive] in
          let '(result, ev3) :=
            match poll_activeConnections env with
            | inr err => ((None, Some err), [])
            | inl activeConnections =>
                match poll_dbSize env with
                | inr err => ((None, Some err), [DBQueryRow tx databaseSize])
                | inl dbSize =>
                    ((Some {| ActiveConnections := activeConnections;
                              DatabaseSizeMb :=
                                float64_div (float64_of_int dbSize)
                                            (float64_of_int (1024 * 1024)) |},
                      None),
                     [DBQueryRow tx databaseSize])
                end
            end in
          let '(p2, _, ev4) :=
            ReleaseTx p1 (fst deferred) (snd deferred) (poll_ended env) in
          (set_poolOf s n p2, result, ev1 ++ ev2 ++ ev3 ++ ev4)
      end
  end.

(** *** [CreateUser] of the user service (service1) *)

(** [fmt.Sprintf("%d", z)]. *)
Definition decimal (z : Z) : string := NilZero.string_of_int (Z.to_int z).

(** The conversion [int32(z)]. *)
Definition wrap_int32 (z : Z) : Z := (z + 2 ^ 31) mod 2 ^ 32 - 2 ^ 31.

(** The events of the user service: those of the database and the log, the
    messages written to Kafka and the pauses. *)
Inductive UserEvent : Type :=
| Base (e : Event)
| KafkaWrite (key value : string)     (* s.kafkaWriter.WriteMessages(ctx, msg) *)
| Sleep (milliseconds : Z).           (* time.Sleep *)

(** What the environment answers during one [CreateUser] of service1. *)
Record UserEnv : Type := mkUserEnv {
  user_begun : Tx + error;             (* s.db.BeginTx(ctx, nil) *)
  user_scanned : Z + error;            (* tx.QueryRowContext(...).Scan(&id) *)
  user_written : nat -> option error;  (* WriteMessages, by attempt from 0 *)
  user_committed : option error;       (* tx.Commit() *)
  user_rolledBack : option error       (* tx.Rollback() *)
}.

(** [pb.CreateUserResponse] of service1. *)
Record UserCreated : Type := { Id : Z (* int32 *) }.

Definition insertUser1 : string :=
  "INSERT INTO users (name, email) VALUES ($1, $2) RETURNING id".

(** The retry loop of [CreateUser]:
      for retries := 0; retries < 3; retries++ {
        err = WriteMessages(msg); if err == nil { break }
        Warnf(...); Sleep((retries+1) * 100ms) }
    [remaining] counts the iterations left, [3 - retries]; the result is the
    last value of [err]. *)
Fixpoint publish (written : nat -> option error) (key value : string)
         (retries remaining : nat) (err : option error)
  : option error * list UserEvent :=
  match remaining with
  | O => (err, [])
  | S remaining' =>
      match written retries with
      | None => (None, [KafkaWrite key value])
      | Some e =>
          let '(last, ev) :=
            publish written key value (S retries) remaining' (Some e) in
          (last,
           KafkaWrite key value ::
           Base (Log WarnLevel
                   (String.append "Failed to write Kafka message (attempt "
                      (String.append (decimal (Z.of_nat retries + 1))
                         (String.append "/3): " (Error e)))) []) ::
           Sleep ((Z.of_nat retries + 1) * 100) :: ev)
      end
  end.

(** The closure deferred by [CreateUser], run on return with the last value
    of [err]:
      if err != nil { if rbErr := tx.Rollback(); rbErr != nil { log } } *)
Definition rollbackOnError (tx : Tx) (err rolledBack : option error)
  : list UserEvent :=
  match err with
  | None => []
  | Some _ =>
      Base (DBRollback tx) ::
      match rolledBack with
      | None => []
      | Some rbErr =>
          [Base (Log ErrorLevel
                   (String.append "Failed to rollback transaction: "
                      (Error rbErr)) [])]
      end
  end.

(** [CreateUser] of service1: the pair of a response and an error it
    returns, and its events. *)
Definition CreateUser1 (req : pb.CreateUserRequest) (env : UserEnv)
  : (option UserCreated * option error) * list UserEvent :=
  let ev0 :=
    [Base (Log InfoLevel
             (String.append "Received CreateUser request: name="
                (String.append (pb.Name req)
                   (String.append ", email=" (pb.Email req)))) [])] in
  match user_begun env with
  | inr err =>
      ((None,
        Some (ErrFormatted "internal error: failed to begin transaction")),
       ev0 ++
       [Base DBBegin;
        Base (Log ErrorLevel
                (String.append "Failed to begin transaction: " (Error err)) [])])
  | inl tx =>
      let ev1 := [Base DBBegin; Base (DBQueryRow tx insertUser1)] in
      match user_scanned env with
      | inr err =>
          ((None,
            Some (ErrFormatted
                    (String.append "failed to create user: " (Error err)))),
           ev0 ++ ev1 ++
           [Base (Log ErrorLevel
                    (String.append "Failed to insert user: " (Error err)) [])] ++
           rollbackOnError tx (Some err) (user_rolledBack env))
      | inl id =>
          let key := decimal id in
          let value :=
            String.append "User " (String.append (pb.Name req) " created") in
          let '(err, ev2) := publish (user_written env) key value 0 3 None in
          match err with
          | Some e =>
              ((None,
                Some (ErrFormatted
                        (String.append "failed to publish event: " (Error e)))),
               ev0 ++ ev1 ++ ev2 ++
               [Base (Log ErrorLevel
                        (String.append
                           "Failed to write Kafka message after all retries: "
                           (Error e)) [])] ++
               rollbackOnError tx (Some e) (user_rolledBack env))
          | None =>
              match user_committed env with
              | Some e =>
                  ((None,
                    Some (ErrFormatted
                            "internal error: failed to commit transaction")),
                   ev0 ++ ev1 ++ ev2 ++
                   [Base (DBCommit tx);
                    Base (Log ErrorLevel
                            (String.append "Failed to commit transaction: "
                               (Error e)) [])] ++
                   rollbackOnError tx (Some e) (user_rolledBack env))
              | None =>
                  ((Some {| Id := wrap_int32 id |}, None),
                   ev0 ++ ev1 ++ ev2 ++
                   [Base (DBCommit tx);
                    Base (Log InfoLevel
                            (String.append
                               "Successfully created user with ID: "
                               (decimal id)) [])] ++
                   rollbackOnError tx None (user_rolledBack env))
              end
          end
      end
  end.

(** Reading the events of the user service. *)
Fixpoint kafkaWrites (ev : list UserEvent) : nat :=
  match ev with
  | [] => O
  | KafkaWrite _ _ :: rest => S (kafkaWrites rest)
  | _ :: rest => kafkaWrites rest
  end.

Fixpoint slept (ev : list UserEvent) : Z :=
  match ev with
  | [] => 0
  | Sleep ms :: rest => ms + slept rest
  | _ :: rest => slept rest
  end.

Fixpoint baseEvents (ev : list UserEvent) : list Event :=
  match ev with
  | [] => []
  | Base e :: rest => e :: baseEvents rest
  | _ :: rest => baseEvents rest
  end.

(** The number of attempts to write that fail before the first that
    succeeds, among the first [remaining] attempts from [retries] on. *)
Fixpoint failuresBefore (written : nat -> option error)
         (retries remaining : nat) : nat :=
  match remaining with
  | O => O
  | S remaining' =>
      match written retries with
      | None => O
      | Some _ => S (failuresBefore written (S retries) remaining')
      end
  end.

(** *** The dashboard (frontend, [App]) *)

(** [Array.prototype.slice(start)] of JavaScript: a negative [start] counts
    from the end of the array, and is clipped at its beginning. *)
Definition js_slice_from {A : Type} (start : Z) (l : list A) : list A :=
  let len := Z.of_nat (List.length l) in
  let k := if start <? 0 then Z.max (len + start) 0 else Z.min start len in
  skipn (Z.to_nat k) l.

Section Dashboard.

(** The values carried by an update: the dashboard copies them. *)
Variable JsValue : Type.

(** [data.serviceMetrics], [data.databaseMetrics], [data.kafkaMetrics]. *)
Record ServiceSample : Type := {
  sample_totalRequests : JsValue;
  sample_successfulRequests : JsValue;
  sample_failedRequests : JsValue;
  sample_averageLatencyMs : JsValue
}.

Record DatabaseSample : Type := {
  sample_activeConnections : JsValue;
  sample_databaseSizeMb : JsValue
}.

Record KafkaSample : Type := {
  sample_messagesReceived : JsValue;
  sample_bytesReceived : JsValue;
  sample_lag : JsValue
}.

(** The argument of [handleMetricsUpdate]; [None] for a key that is absent. *)
Record MetricsUpdateData : Type := {
  data_serviceMetrics : option ServiceSample;
  data_databaseMetrics : option DatabaseSample;
  data_kafkaMetrics : option KafkaSample
}.

(** The state [metrics] of [App]: four series of points, a point being a
    sample with the time it was received. *)
Record DashboardMetrics : Type := {
  userServiceSeries : list (string * ServiceSample);
  orderServiceSeries : list (string * ServiceSample);
  databaseSeries : list (string * DatabaseSample);
  kafkaSeries : list (string * KafkaSample)
}.

(** [useState({userService: [], orderService: [], database: [], kafka: []})]. *)
Definition emptyDashboard : DashboardMetrics :=
  {| userServiceSeries := []; orderServiceSeries := [];
     databaseSeries := []; kafkaSeries := [] |}.

(** [[...series, point].slice(-20)]. *)
Definition pushPoint {A : Type} (series : list A) (point : A) : list A :=
  js_slice_from (-20) (series ++ [point]).

(** The function [handleMetricsUpdate] passes to [setMetrics];
    [timestamp] is [new Date().toLocaleTimeString()]. *)
Definition handleMetricsUpdate (timestamp : string) (data : MetricsUpdateData)
           (prevMetrics : DashboardMetrics) : DashboardMetrics :=
  {| userServiceSeries :=
       match data_serviceMetrics data with
       | Some sample => pushPoint (userServiceSeries prevMetrics) (timestamp, sample)
       | None => userServiceSeries prevMetrics
       end;
     orderServiceSeries := orderServiceSeries prevMetrics;
     databaseSeries :=
       match data_databaseMetrics data with
       | Some sample => pushPoint (databaseSeries prevMetrics) (timestamp, sample)
       | None => databaseSeries prevMetrics
       end;
     kafkaSeries :=
       match data_kafkaMetrics data with
       | Some sample => pushPoint (kafkaSeries prevMetrics) (timestamp, sample)
       | None => kafkaSeries prevMetrics
       end |}.

(** The dashboard after the updates received, each with its time. *)
Definition receiveUpdates (m : DashboardMetrics)
           (updates : list (string * MetricsUpdateData)) : DashboardMetrics :=
  fold_left (fun m u => handleMetricsUpdate (fst u) (snd u) m) updates m.

(** The points of the user service carried by [updates], in order. *)
Definition servicePoints (updates : list (string * MetricsUpdateData))
  : list (string * ServiceSample) :=
  flat_map (fun u => match data_serviceMetrics (snd u) with
                     | Some sample => [(fst u, sample)]
                     | None => []
                     end) updates.

Definition databasePoints (updates : list (string * MetricsUpdateData))
  : list (string * DatabaseSample) :=
  flat_map (fun u => match data_databaseMetrics (snd u) with
                     | Some sample => [(fst u, sample)]
                     | None => []
                     end) updates.

Definition kafkaPoints (updates : list (string * MetricsUpdateData))
  : list (string * KafkaSample) :=
  flat_map (fun u => match data_kafkaMetrics (snd u) with
                     | Some sample => [(fst u, sample)]
                     | None => []
                     end) updates.

End Dashboard.

Arguments sample_totalRequests {JsValue}.
Arguments data_serviceMetrics {JsValue}.
Arguments data_databaseMetrics {JsValue}.
Arguments data_kafkaMetrics {JsValue}.
Arguments userServiceSeries {JsValue}.
Arguments orderServiceSeries {JsValue}.
Arguments databaseSeries {JsValue}.
Arguments kafkaSeries {JsValue}.
Arguments emptyDashboard {JsValue}.
Arguments handleMetricsUpdate {JsValue}.
Arguments receiveUpdates {JsValue}.
Arguments servicePoints {JsValue}.
Arguments databasePoints {JsValue}.
Arguments kafkaPoints {JsValue}.

(** *** The listeners of [WebSocketService] (frontend) *)

(** A callback is a JavaScript function, known by its identity. *)
Definition Callback : Type := nat.

(** [Set.prototype.add] and [Set.prototype.delete]: a set keeps its
    elements in the order they were added. *)
Definition set_add (cb : Callback) (callbacks : list Callback) : list Callback :=
  if existsb (Nat.eqb cb) callbacks then callbacks else callbacks ++ [cb].

Definition set_delete (cb : Callback) (callbacks : list Callback)
  : list Callback :=
  filter (fun c => negb (Nat.eqb c cb)) callbacks.

(** The [socket] of the service. *)
Inductive Socket : Type := SocketIO.

Record WebSocketService : Type := {
  socket : option Socket;                       (* null or the socket *)
  listeners : string -> option (list Callback); (* a Map of Sets *)
  reconnectAttempts : nat
}.

(** The constructor. *)
Definition newWebSocketService : WebSocketService :=
  {| socket := None; listeners := fun _ => None; reconnectAttempts := 0 |}.

(** [connect()]: nothing is done when the socket exists. *)
Definition connect (ws : WebSocketService) : WebSocketService :=
  match socket ws with
  | Some _ => ws
  | None =>
      {| socket := Some SocketIO; listeners := listeners ws;
         reconnectAttempts := reconnectAttempts ws |}
  end.

(** [subscribe(event, callback)]. *)
Definition subscribe (ws : WebSocketService) (event : string) (cb : Callback)
  : WebSocketService :=
  let callbacks :=
    match listeners ws event with
    | Some callbacks => callbacks
    | None => []
    end in
  {| socket := socket ws;
     listeners := fun e => if String.eqb e event
                           then Some (set_add cb callbacks)
                           else listeners ws e;
     reconnectAttempts := reconnectAttempts ws |}.

(** [unsubscribe(event, callback)]. *)
Definition unsubscribe (ws : WebSocketService) (event : string) (cb : Callback)
  : WebSocketService :=
  match listeners ws event with
  | None => ws
  | Some callbacks =>
      {| socket := socket ws;
         listeners := fun e => if String.eqb e event
                               then Some (set_delete cb callbacks)
                               else listeners ws e;
         reconnectAttempts := reconnectAttempts ws |}
  end.

(** [notifyListeners(event, data)]: the callbacks called, in order, each
    with [data]. *)
Definition notifyListeners {D : Type} (ws : WebSocketService) (event : string)
           (data : D) : list (Callback * D) :=
  match listeners ws event with
  | None => []
  | Some callbacks => map (fun cb => (cb, data)) callbacks
  end.

(** [disconnect()]. *)
Definition disconnect (ws : WebSocketService) : WebSocketService :=
  match socket ws with
  | None => ws
  | Some _ =>
      {| socket := None; listeners := fun _ => None;
         reconnectAttempts := reconnectAttempts ws |}
  end.

(** [handleDisconnect(reason)]. *)
Definition handleDisconnect (ws : WebSocketService) (reason : string)
  : WebSocketService :=
  if String.eqb reason "io server disconnect" then connect ws else ws.

(** What the socket delivers to the handlers [connect()] registers. *)
Inductive SocketEvent (D : Type) : Type :=
| OnConnect
| OnMetricsUpdate (data : D)
| OnError (error : D)
| OnDisconnect (reason : string)
| OnReconnectAttempt.
Arguments OnConnect {D}.
Arguments OnMetricsUpdate {D}.
Arguments OnError {D}.
Arguments OnDisconnect {D}.
Arguments OnReconnectAttempt {D}.

(** The handlers of [connect()]: the service after the event and the
    callbacks called. *)
Definition onSocketEvent {D : Type} (ws : WebSocketService) (ev : SocketEvent D)
  : WebSocketService * list (Callback * D) :=
  match ev with
  | OnConnect =>
      ({| socket := socket ws; listeners := listeners ws;
          reconnectAttempts := 0 |}, [])
  | OnMetricsUpdate data => (ws, notifyListeners ws "metrics" data)
  | OnError error => (ws, notifyListeners ws "error" error)   (* handleError *)
  | OnDisconnect reason => (handleDisconnect ws reason, [])
  | OnReconnectAttempt =>
      ({| socket := socket ws; listeners := listeners ws;
          reconnectAttempts := S (reconnectAttempts ws) |}, [])
  end.

(** No callback is twice in a set. *)
Definition wf_listeners (ws : WebSocketService) : Prop :=
  forall (event : string) (callbacks : list Callback),
    listeners ws event = Some callbacks -> NoDup callbacks.

(** A use of the service by its clients. *)
Inductive ServiceCall : Type :=
| CallConnect
| CallSubscribe (event : string) (cb : Callback)
| CallUnsubscribe (event : string) (cb : Callback)
| CallDisconnect.

Definition serviceCall (ws : WebSocketService) (c : ServiceCall)
  : WebSocketService :=
  match c with
  | CallConnect => connect ws
  | CallSubscribe event cb => subscribe ws event cb
  | CallUnsubscribe event cb => unsubscribe ws event cb
  | CallDisconnect => disconnect ws
  end.

(** *** The accounting of the load test ([TestHighLoad]) *)

(** The counters of the test that the accounting block updates. *)
Record LoadTally : Type := {
  load_totalRequests : Z;        (* uint64 *)
  load_successfulRequests : Z;   (* uint64 *)
  load_failedRequests : Z;       (* uint64 *)
  load_totalLatency : Z;         (* time.Duration, an int64 of nanoseconds *)
  load_userFailures : Z          (* uint64 *)
}.

Definition LoadTally0 : LoadTally :=
  {| load_totalRequests := 0; load_successfulRequests := 0;
     load_failedRequests := 0; load_totalLatency := 0;
     load_userFailures := 0 |}.

(** The result of one call of an endpoint: its name, the error it returned
    and the time it took. *)
Record EndpointResult : Type := {
  endpoint_name : string;
  endpoint_err : option error;
  endpoint_latency : Z
}.

(** The block of the test under its mutex, run after each call:
      totalRequests++
      if err != nil { failedRequests++; if name is CreateUser or GetUser
                      { userFailures++ } }
      else { successfulRequests++; totalLatency += latency } *)
Definition recordEndpoint (t : LoadTally) (r : EndpointResult) : LoadTally :=
  match endpoint_err r with
  | Some _ =>
      {| load_totalRequests := wrap_uint64 (load_totalRequests t + 1);
         load_successfulRequests := load_successfulRequests t;
         load_failedRequests := wrap_uint64 (load_failedRequests t + 1);
         load_totalLatency := load_totalLatency t;
         load_userFailures :=
           if (String.eqb (endpoint_name r) "CreateUser"
               || String.eqb (endpoint_name r) "GetUser")%bool
           then wrap_uint64 (load_userFailures t + 1)
           else load_userFailures t |}
  | None =>
      {| load_totalRequests := wrap_uint64 (load_totalRequests t + 1);
         load_successfulRequests := wrap_uint64 (load_successfulRequests t + 1);
         load_failedRequests := load_failedRequests t;
         load_totalLatency :=
           wrap_int (load_totalLatency t + endpoint_latency r);
         load_userFailures := load_userFailures t |}
  end.

(** The tally after the calls of a run, in the order the mutex let them in. *)
Definition recordEndpoints (t : LoadTally) (rs : list EndpointResult)
  : LoadTally :=
  fold_left recordEndpoint rs t.

(** [avgLatency := totalLatency / time.Duration(successfulRequests)]: [None]
    when the division panics, the divisor being zero. *)
Definition averageLatency (t : LoadTally) : option Z :=
  let divisor := wrap_int (load_successfulRequests t) in
  if divisor =? 0 then None
  else Some (wrap_int (Z.quot (load_totalLatency t) divisor)).

(** The call failed. *)
Definition endpointFailed (r : EndpointResult) : bool :=
  match endpoint_err r with
  | Some _ => true
  | None => false
  end.

(** The calls of a run that succeeded, and the sum of the times they took
    (an exact sum, before any wrap-around). *)
Definition succeededCalls (rs : list EndpointResult) : list EndpointResult :=
  filter (fun r => negb (endpointFailed r)) rs.

Definition successLatency (rs : list EndpointResult) : Z :=
  fold_right (fun r acc => endpoint_latency r + acc) 0 (succeededCalls rs).

(** The call failed and was one of the two user operations. *)
Definition userOperationFailed (r : EndpointResult) : bool :=
  (endpointFailed r
   && (String.eqb (endpoint_name r) "CreateUser"
       || String.eqb (endpoint_name r) "GetUser"))%bool.

(** *** The monitoring service over a sequence of calls *)

(** A call of the monitoring service, with the answers of the environment
    during the call. *)
Inductive Request : Type :=
| CallCreateUser (req : pb.CreateUserRequest) (env : TxEnv Z)
| CallGetUser (req : pb.GetUserRequest) (env : TxEnv (string * string))
| CallGetDatabaseMetrics (req : pb.GetMetricsRequest) (env : PollEnv)
| CallGetServiceMetrics (req : pb.GetMetricsRequest).

(** The server after a call. *)
Definition handle (s : server) (r : Request) : server :=
  match r with
  | CallCreateUser req env => fst (fst (CreateUser s req env))
  | CallGetUser req env => fst (fst (GetUser s req env))
  | CallGetDatabaseMetrics req env => fst (fst (GetDatabaseMetrics s req env))
  | CallGetServiceMetrics req => s
  end.

(** The server after calls served one after the other. *)
Definition serve (s : server) (rs : list Request) : server :=
  fold_left handle rs s.

(** The database began the transaction and ran the statement. *)
Definition answered {A : Type} (env : TxEnv A) : bool :=
  match env_begun env, env_scanned env with
  | inl _, inl _ => true
  | _, _ => false
  end.

(** The calls that create or read a user, and among them those the database
    answered and those it did not. *)
Definition userCall (r : Request) : bool :=
  match r with
  | CallCreateUser _ _ | CallGetUser _ _ => true
  | _ => false
  end.

Definition userCallAnswered (r : Request) : bool :=
  match r with
  | CallCreateUser _ env => answered env
  | CallGetUser _ env => answered env
  | _ => false
  end.

Definition userCallFailed (r : Request) : bool :=
  match r with
  | CallCreateUser _ env => negb (answered env)
  | CallGetUser _ env => negb (answered env)
  | _ => false
  end.

(** The update of the counters a call runs on a server whose pool has a
    free slot. *)
Definition requestUpdates (r : Request) : list MetricsUpdate :=
  match r with
  | CallCreateUser _ env => [updateOf (newPool 10) env]
  | CallGetUser _ env => [updateOf (newPool 10) env]
  | _ => []
  end.

(** * Properties *)

(** ** Machine integers *)

Ltac unfold_ints :=
  unfold in_int, in_uint64, wrap_int, wrap_uint64, min_int, max_int,
    max_uint64 in *;
  change (2 ^ 63) with 9223372036854775808 in *;
  change (2 ^ 64) with 18446744073709551616 in *.

Lemma wrap_int_id (z : Z) : in_int z -> wrap_int z = z.
Proof.
  intros H. unfold_ints. rewrite Z.mod_small; lia.
Qed.

Lemma wrap_uint64_id (z : Z) : in_uint64 z -> wrap_uint64 z = z.
Proof.
  intros H. unfold_ints. apply Z.mod_small. lia.
Qed.

Lemma wrap_uint64_range (z : Z) : in_uint64 (wrap_uint64 z).
Proof.
  unfold_ints. pose proof (Z.mod_pos_bound z 18446744073709551616). lia.
Qed.

Lemma wrap_uint64_add_l (x y : Z) :
  wrap_uint64 (wrap_uint64 x + y) = wrap_uint64 (x + y).
Proof.
  unfold wrap_uint64. apply Zplus_mod_idemp_l.
Qed.

Lemma wrap_uint64_add_r (x y : Z) :
  wrap_uint64 (x + wrap_uint64 y) = wrap_uint64 (x + y).
Proof.
  unfold wrap_uint64. apply Zplus_mod_idemp_r.
Qed.

(** ** The session pool *)

(** Equations between results that differ by the arithmetic of the active
    count only. *)
Ltac pool_arith :=
  unfold set_activeConns, newPool; simpl;
  repeat match goal with |- (_, _) = (_, _) => f_equal end;
  try reflexivity;
  match goal with |- mkDBPool _ _ = mkDBPool _ _ => f_equal; lia end.

Lemma admission_refused (p : DBPool) :
  maxConns p <= activeConns p -> admission p = (p, Some ErrTooManyConnections).
Proof.
  intros H. unfold admission.
  destruct (Z.geb_spec (activeConns p) (maxConns p)); [reflexivity | lia].
Qed.

Lemma admission_granted (p : DBPool) :
  wf_DBPool p -> activeConns p < maxConns p ->
  admission p = (set_activeConns p (activeConns p + 1), None).
Proof.
  intros [Hmax Hact] Hlt. unfold admission.
  destruct (Z.geb_spec (activeConns p) (maxConns p)); [lia |].
  rewrite wrap_int_id; [reflexivity |]. unfold_ints. lia.
Qed.

Lemma undoAdmit_after_admit (p : DBPool) :
  wf_DBPool p -> activeConns p < maxConns p ->
  undoAdmit (set_activeConns p (activeConns p + 1)) = p.
Proof.
  intros [Hmax Hact] Hlt. destruct p as [m a]. unfold undoAdmit, set_activeConns.
  simpl in *. rewrite wrap_int_id; [f_equal; lia |]. unfold_ints. lia.
Qed.

Lemma releaseSlot_active (p : DBPool) :
  in_int (activeConns p) -> min_int < activeConns p ->
  releaseSlot p = set_activeConns p (activeConns p - 1).
Proof.
  intros Hact Hmin. unfold releaseSlot. rewrite wrap_int_id; [reflexivity |].
  unfold_ints. lia.
Qed.

(** [BeginTx] and [ReleaseTx] move the pool as their atomic regions do. *)
Lemma BeginTx_as_steps (p : DBPool) (begun : Tx + error) :
  fst (fst (BeginTx p begun)) =
  match snd (admission p), begun with
  | Some _, _ => pool_step p StepAdmit
  | None, inl _ => pool_step (pool_step p StepAdmit) StepBeginOk
  | None, inr _ => pool_step (pool_step p StepAdmit) StepBeginFail
  end.
Proof.
  unfold BeginTx, pool_step. destruct (admission p) as [p1 [e |]]; simpl.
  - reflexivity.
  - destruct begun; reflexivity.
Qed.

Lemma ReleaseTx_as_step (p : DBPool) (tx : Tx) (err ended : option error) :
  fst (fst (ReleaseTx p tx err ended)) = pool_step p StepRelease.
Proof.
  unfold ReleaseTx. destruct err; reflexivity.
Qed.

(** C10. When the admission check of [BeginTx] passes and the database fails
    to begin a transaction, the active count, incremented at admission, is
    decremented before the error is returned: the call returns that error
    and leaves the pool exactly as it found it. *)
Theorem BeginTx_failed_begin_restores_pool (p : DBPool) (e : error) :
  wf_DBPool p -> activeConns p < maxConns p ->
  activeConns (fst (admission p)) = activeConns p + 1 /\
  undoAdmit (fst (admission p)) = p /\
  BeginTx p (inr e) = (p, inr e, [DBBegin]).
Proof.
  intros Hwf Hlt. unfold BeginTx.
  rewrite (admission_granted p Hwf Hlt). simpl.
  rewrite (undoAdmit_after_admit p Hwf Hlt). auto.
Qed.

Lemma BeginTx_failed_begin_restores_pool_witness :
  let p := {| maxConns := 10; activeConns := 3 |} in
  activeConns (fst (admission p)) = 4 /\
  undoAdmit (fst (admission p)) = p /\
  BeginTx p (inr (ErrDriver "connection refused")) =
  (p, inr (ErrDriver "connection refused"), [DBBegin]).
Proof.
  apply (BeginTx_failed_begin_restores_pool
           {| maxConns := 10; activeConns := 3 |}
           (ErrDriver "connection refused")).
  - unfold wf_DBPool, in_int, min_int, max_int. simpl. lia.
  - simpl. lia.
Defined.

(** C6. [ReleaseTx] decrements the active count whatever the outcome handed
    in and whatever the commit or the rollback answers; it rolls the
    transaction back when the outcome is an error and commits it otherwise,
    and returns what the commit or the rollback answered. *)
Theorem ReleaseTx_decrements_then_ends
        (p : DBPool) (tx : Tx) (err ended : option error) :
  in_int (activeConns p) -> min_int < activeConns p ->
  activeConns (fst (fst (ReleaseTx p tx err ended))) = activeConns p - 1 /\
  maxConns (fst (fst (ReleaseTx p tx err ended))) = maxConns p /\
  snd (fst (ReleaseTx p tx err ended)) = ended /\
  releases (snd (ReleaseTx p tx err ended)) =
  [(tx, match err with Some _ => false | None => true end)].
Proof.
  intros Hact Hmin. unfold ReleaseTx.
  rewrite (releaseSlot_active p Hact Hmin).
  destruct err; simpl; auto.
Qed.

Lemma ReleaseTx_decrements_then_ends_witness :
  let p := {| maxConns := 10; activeConns := 3 |} in
  let tx := TxHandle 7 in
  let err := Some ErrTransactionFailed in
  let ended := Some (ErrDriver "driver: bad connection") in
  activeConns (fst (fst (ReleaseTx p tx err ended))) = 3 - 1 /\
  maxConns (fst (fst (ReleaseTx p tx err ended))) = 10 /\
  snd (fst (ReleaseTx p tx err ended)) = ended /\
  releases (snd (ReleaseTx p tx err ended)) = [(tx, false)].
Proof.
  apply (ReleaseTx_decrements_then_ends
           {| maxConns := 10; activeConns := 3 |} (TxHandle 7)
           (Some ErrTransactionFailed)
           (Some (ErrDriver "driver: bad connection"))).
  - unfold in_int, min_int, max_int. simpl. lia.
  - unfold min_int. simpl. lia.
Defined.

Lemma acquireAll_admits (txs : list Tx) :
  forall p : DBPool,
    wf_DBPool p ->
    activeConns p + Z.of_nat (List.length txs) <= maxConns p ->
    acquireAll p txs =
    (set_activeConns p (activeConns p + Z.of_nat (List.length txs)),
     map inl txs).
Proof.
  induction txs as [| tx rest IH]; intros p Hwf Hroom.
  - destruct p as [m a]. pool_arith.
  - cbn [acquireAll List.length map] in *.
    assert (Hlt : activeConns p < maxConns p) by lia.
    unfold BeginTx. rewrite (admission_granted p Hwf Hlt).
    assert (Hwf' : wf_DBPool (set_activeConns p (activeConns p + 1))).
    { destruct Hwf as [Hmax Hact]. split; simpl; [exact Hmax |].
      unfold_ints. lia. }
    rewrite (IH _ Hwf') by (simpl; lia).
    rewrite Nat2Z.inj_succ. pool_arith.
Qed.

Lemma BeginTx_after_release (p : DBPool) (tx tx' : Tx)
      (err ended : option error) :
  wf_DBPool p -> 0 < activeConns p -> activeConns p <= maxConns p ->
  BeginTx (fst (fst (ReleaseTx p tx err ended))) (inl tx') =
  (p, inl tx', [DBBegin]).
Proof.
  intros Hwf Hpos Hle. rewrite ReleaseTx_as_step. simpl pool_step.
  destruct Hwf as [Hmax Hact].
  rewrite releaseSlot_active by (unfold_ints; lia).
  unfold BeginTx. rewrite admission_granted.
  - destruct p as [m a]. pool_arith.
  - split; simpl; unfold_ints; lia.
  - simpl. lia.
Qed.

(** C5. [BeginTx] on a pool whose active count has reached the maximum
    returns [ErrTooManyConnections] at once: the pool is left as it is and
    the database is not called.  When a caller is admitted the count is
    incremented before the database is asked to begin the transaction.
    With a maximum of [K], once [K] sessions are held a further [BeginTx]
    fails that way, and after any one of them is released, whatever the
    outcome, the next [BeginTx] is admitted again. *)
Theorem BeginTx_exhaustion (K : Z) (txs : list Tx) :
  0 <= K <= max_int -> Z.of_nat (List.length txs) = K ->
  (forall (p : DBPool) (begun : Tx + error),
      maxConns p <= activeConns p ->
      BeginTx p begun = (p, inr ErrTooManyConnections, [])) /\
  (forall (p : DBPool) (tx : Tx),
      wf_DBPool p -> activeConns p < maxConns p ->
      activeConns (fst (admission p)) = activeConns p + 1 /\
      BeginTx p (inl tx) = (fst (admission p), inl tx, [DBBegin])) /\
  snd (acquireAll (newPool K) txs) = map inl txs /\
  activeConns (fst (acquireAll (newPool K) txs)) = K /\
  (forall begun : Tx + error,
      BeginTx (fst (acquireAll (newPool K) txs)) begun =
      (fst (acquireAll (newPool K) txs), inr ErrTooManyConnections, [])) /\
  (forall (tx tx' : Tx) (err ended : option error),
      In tx txs ->
      BeginTx
        (fst (fst (ReleaseTx (fst (acquireAll (newPool K) txs)) tx err ended)))
        (inl tx') =
      (fst (acquireAll (newPool K) txs), inl tx', [DBBegin])).
Proof.
  intros HK Hlen.
  assert (Hfull : forall (p : DBPool) (begun : Tx + error),
             maxConns p <= activeConns p ->
             BeginTx p begun = (p, inr ErrTooManyConnections, [])).
  { intros p begun Hge. unfold BeginTx. rewrite (admission_refused p Hge).
    reflexivity. }
  split; [exact Hfull |]. split.
  { intros p tx Hwf Hlt. unfold BeginTx. rewrite (admission_granted p Hwf Hlt).
    simpl. split; reflexivity. }
  assert (Hwf0 : wf_DBPool (newPool K)).
  { split; simpl; unfold_ints; lia. }
  rewrite (acquireAll_admits txs (newPool K) Hwf0) by (simpl; lia).
  simpl fst. simpl snd.
  split; [reflexivity |]. split; [simpl; lia |]. split.
  { intros begun. apply Hfull. simpl. lia. }
  intros tx tx' err ended Hin.
  assert (Hpos : 0 < K).
  { destruct txs as [| t r]; [contradiction | simpl in Hlen; lia]. }
  apply BeginTx_after_release.
  - split; simpl; unfold_ints; lia.
  - simpl. lia.
  - simpl. lia.
Qed.

Lemma BeginTx_exhaustion_witness :
  let txs := [TxHandle 1; TxHandle 2] in
  let held := fst (acquireAll (newPool 2) txs) in
  snd (acquireAll (newPool 2) txs) = map inl txs /\
  activeConns held = 2 /\
  BeginTx held (inl (TxHandle 3)) = (held, inr ErrTooManyConnections, []) /\
  BeginTx (fst (fst (ReleaseTx held (TxHandle 2) (Some ErrTransactionFailed)
                       None)))
          (inl (TxHandle 3)) = (held, inl (TxHandle 3), [DBBegin]).
Proof.
  assert (HK : 0 <= 2 <= max_int) by (unfold max_int; simpl; lia).
  assert (Hlen : Z.of_nat (List.length [TxHandle 1; TxHandle 2]) = 2)
    by reflexivity.
  destruct (BeginTx_exhaustion 2 [TxHandle 1; TxHandle 2] HK Hlen)
    as (_ & _ & Hheld & Hact & Hfull & Hagain).
  split; [exact Hheld |]. split; [exact Hact |].
  split; [apply Hfull | apply Hagain; simpl; auto].
Defined.

Section ScopedExecutions.

Variable K : Z.
Hypothesis K_range : 0 <= K <= max_int.

Lemma accounted_bounded (p : DBPool) (c : Callers) :
  accounted K p c -> pool_bounded p.
Proof.
  intros (Hmax & Hact & Hle). unfold pool_bounded. lia.
Qed.

Lemma accounted_step (p : DBPool) (c c' : Callers) (st : PoolStep) :
  accounted K p c -> callers_step p c st = Some c' ->
  accounted K (pool_step p st) c'.
Proof.
  intros (Hmax & Hact & Hle) Hstep. pose proof K_range as HK.
  destruct p as [m a], c as [pend hold].
  cbn [maxConns activeConns pending held] in Hmax, Hact, Hle. subst m.
  unfold accounted.
  destruct st; cbn [callers_step pool_step pending held] in *;
    unfold undoAdmit, releaseSlot in *;
    cbn [set_activeConns maxConns activeConns] in *.
  - (* admission *)
    unfold admission in *. cbn [maxConns activeConns] in *.
    destruct (Z.geb_spec a K);
      cbn [fst snd maxConns activeConns set_activeConns] in *;
      injection Hstep as Hc; subst c'; cbn [pending held].
    + lia.
    + rewrite wrap_int_id by (unfold_ints; lia). lia.
  - (* the database answered a transaction *)
    destruct pend as [| n]; [discriminate |].
    injection Hstep as Hc; subst c'; cbn [pending held]. lia.
  - (* the database failed *)
    destruct pend as [| n]; [discriminate |].
    injection Hstep as Hc; subst c'; cbn [pending held].
    rewrite wrap_int_id by (unfold_ints; lia). lia.
  - (* release *)
    destruct hold as [| n]; [discriminate |].
    injection Hstep as Hc; subst c'; cbn [pending held].
    rewrite wrap_int_id by (unfold_ints; lia). lia.
Qed.

Lemma scoped_observations_bounded (steps : list PoolStep) :
  forall (p : DBPool) (c : Callers),
    accounted K p c -> scoped p c steps = true ->
    Forall pool_bounded (observations p steps).
Proof.
  induction steps as [| st rest IH]; intros p c Hacc Hscoped; simpl.
  - constructor; [exact (accounted_bounded p c Hacc) | constructor].
  - constructor; [exact (accounted_bounded p c Hacc) |].
    simpl in Hscoped.
    destruct (callers_step p c st) as [c' |] eqn:Hstep; [| discriminate].
    exact (IH _ c' (accounted_step p c c' st Hacc Hstep) Hscoped).
Qed.

End ScopedExecutions.

(** C1 (as amended). In a pool created with a maximum between 0 and the
    largest [int], along every interleaving of the atomic regions of
    [BeginTx] and [ReleaseTx] in which a session is released only while it
    is held (after it was acquired, and once), the active count stays
    between 0 and the maximum at every observation point; releases with a
    failure outcome and acquires whose [Begin] fails are included. *)
Theorem scoped_pool_stays_bounded (K : Z) (steps : list PoolStep) :
  0 <= K <= max_int ->
  scoped (newPool K) {| pending := 0; held := 0 |} steps = true ->
  Forall pool_bounded (observations (newPool K) steps).
Proof.
  intros HK Hscoped.
  apply (scoped_observations_bounded K HK steps (newPool K)
           {| pending := 0; held := 0 |}); [| exact Hscoped].
  unfold accounted. simpl. lia.
Qed.

Lemma scoped_pool_stays_bounded_witness :
  Forall pool_bounded
    (observations (newPool 1)
       [StepAdmit; StepAdmit; StepBeginFail; StepAdmit; StepBeginOk;
        StepAdmit; StepRelease; StepAdmit]).
Proof.
  apply (scoped_pool_stays_bounded 1).
  - unfold max_int. simpl. lia.
  - reflexivity.
Defined.

(** C1 (as stated) fails.  A session released twice takes the active count
    below zero: the second [ReleaseTx] decrements again although the
    transaction is already done.  And a pool created with a negative
    maximum starts above its maximum. *)
Lemma pool_unbounded_counterexample :
  let tx := TxHandle 1 in
  let done :=
    Some (ErrDriver "sql: transaction has already been committed or rolled back") in
  let p1 := fst (fst (BeginTx (newPool 10) (inl tx))) in
  let p2 := fst (fst (ReleaseTx p1 tx None None)) in
  let p3 := fst (fst (ReleaseTx p2 tx None done)) in
  (snd (fst (BeginTx (newPool 10) (inl tx))) = inl tx /\
   activeConns p3 = -1 /\ ~ pool_bounded p3) /\
  ~ Forall pool_bounded
      (observations (newPool 10)
         [StepAdmit; StepBeginOk; StepRelease; StepRelease]) /\
  NewDBPool None (-1) = inl (newPool (-1)) /\
  ~ pool_bounded (newPool (-1)).
Proof.
  intros tx done p1 p2 p3.
  assert (E3 : p3 = {| maxConns := 10; activeConns := -1 |})
    by (vm_compute; reflexivity).
  assert (Hneg : ~ pool_bounded p3).
  { rewrite E3. unfold pool_bounded. simpl. lia. }
  split; [| split; [| split]].
  - split; [reflexivity |]. split; [rewrite E3; reflexivity | exact Hneg].
  - intros H. apply Hneg.
    assert (Hin : In p3 (observations (newPool 10)
                           [StepAdmit; StepBeginOk; StepRelease; StepRelease])).
    { rewrite E3. vm_compute. auto 10. }
    exact (proj1 (Forall_forall _ _) H p3 Hin).
  - reflexivity.
  - unfold pool_bounded. simpl. lia.
Qed.

(** ** The handlers *)

(** Runs a handler along each of its paths: the result of [BeginTx], then
    the result of the statement. *)
Ltac handler_paths s env :=
  unfold CreateUser, GetUser, updateOf, outcomeOf;
  destruct (BeginTx (userPool s) (env_begun env)) as [[pool1 [tx | e]] ev1];
  [ destruct (env_scanned env) as [row | e]; [try destruct row |] | ];
  cbn.

Lemma CreateUser_counters (s : server) (req : pb.CreateUserRequest)
      (env : TxEnv Z) :
  userService (fst (fst (CreateUser s req env))) =
  applyUpdate (userService s) (updateOf (userPool s) env) /\
  orderService (fst (fst (CreateUser s req env))) = orderService s.
Proof.
  handler_paths s env; split; reflexivity.
Qed.

Lemma GetUser_counters (s : server) (req : pb.GetUserRequest)
      (env : TxEnv (string * string)) :
  userService (fst (fst (GetUser s req env))) =
  applyUpdate (userService s) (updateOf (userPool s) env) /\
  orderService (fst (fst (GetUser s req env))) = orderService s.
Proof.
  handler_paths s env; split; reflexivity.
Qed.

(** Every path of a handler that acquired a session releases it once, and
    by a commit, whatever the statement returned. *)
Lemma CreateUser_releases (s : server) (req : pb.CreateUserRequest)
      (env : TxEnv Z) :
  releases (snd (CreateUser s req env)) =
  match snd (fst (BeginTx (userPool s) (env_begun env))) with
  | inl tx => [(tx, true)]
  | inr _ => []
  end.
Proof.
  unfold CreateUser, BeginTx.
  destruct (admission (userPool s)) as [p1 [e |]]; [reflexivity |].
  destruct (env_begun env) as [tx | e]; [| reflexivity].
  destruct (env_scanned env) as [row | e]; reflexivity.
Qed.

Lemma GetUser_releases (s : server) (req : pb.GetUserRequest)
      (env : TxEnv (string * string)) :
  releases (snd (GetUser s req env)) =
  match snd (fst (BeginTx (userPool s) (env_begun env))) with
  | inl tx => [(tx, true)]
  | inr _ => []
  end.
Proof.
  unfold GetUser, BeginTx.
  destruct (admission (userPool s)) as [p1 [e |]]; [reflexivity |].
  destruct (env_begun env) as [tx | e]; [| reflexivity].
  destruct (env_scanned env) as [[name email] | e]; reflexivity.
Qed.

(** What the two handlers do to the counters, path by path.  Every
    invocation increments the total and exactly one of the successful and
    failed counts.  [totalLatency += elapsed] stands before the test of the
    statement's error, so the elapsed time is added on both paths that
    begin a transaction; the path on which [BeginTx] fails returns before
    that line and leaves the cumulative latency as it was. *)
Lemma handlers_counters_by_outcome :
  (forall (s : server) (req : pb.CreateUserRequest) (env : TxEnv Z),
      let m := userService s in
      userService (fst (fst (CreateUser s req env))) =
      match outcomeOf (userPool s) env with
      | BeginFailed _ =>
          {| totalRequests := wrap_uint64 (totalRequests m + 1);
             successfulRequests := successfulRequests m;
             failedRequests := wrap_uint64 (failedRequests m + 1);
             totalLatency := totalLatency m |}
      | StatementFailed _ =>
          {| totalRequests := wrap_uint64 (totalRequests m + 1);
             successfulRequests := successfulRequests m;
             failedRequests := wrap_uint64 (failedRequests m + 1);
             totalLatency :=
               wrap_uint64 (totalLatency m + wrap_uint64 (env_elapsed env)) |}
      | Succeeded =>
          {| totalRequests := wrap_uint64 (totalRequests m + 1);
             successfulRequests := wrap_uint64 (successfulRequests m + 1);
             failedRequests := failedRequests m;
             totalLatency :=
               wrap_uint64 (totalLatency m + wrap_uint64 (env_elapsed env)) |}
      end) /\
  (forall (s : server) (req : pb.GetUserRequest)
          (env : TxEnv (string * string)),
      let m := userService s in
      userService (fst (fst (GetUser s req env))) =
      match outcomeOf (userPool s) env with
      | BeginFailed _ =>
          {| totalRequests := wrap_uint64 (totalRequests m + 1);
             successfulRequests := successfulRequests m;
             failedRequests := wrap_uint64 (failedRequests m + 1);
             totalLatency := totalLatency m |}
      | StatementFailed _ =>
          {| totalRequests := wrap_uint64 (totalRequests m + 1);
             successfulRequests := successfulRequests m;
             failedRequests := wrap_uint64 (failedRequests m + 1);
             totalLatency :=
               wrap_uint64 (totalLatency m + wrap_uint64 (env_elapsed env)) |}
      | Succeeded =>
          {| totalRequests := wrap_uint64 (totalRequests m + 1);
             successfulRequests := wrap_uint64 (successfulRequests m + 1);
             failedRequests := failedRequests m;
             totalLatency :=
               wrap_uint64 (totalLatency m + wrap_uint64 (env_elapsed env)) |}
      end).
Proof.
  split; intros s req env m; subst m; handler_paths s env; reflexivity.
Qed.

(** C3. The claim fails on the code.  [CreateUser] begins a transaction
    and the INSERT fails after 5 ms: the total and the failed count are
    incremented, the successful count is not, and yet the 5 ms of the failed
    request are added to the cumulative latency, which the claim says a
    failed outcome leaves unchanged.  The other failure path of the same
    handler, on which [BeginTx] fails, does leave it unchanged. *)
Theorem failed_statement_adds_latency :
  let env :=
    {| env_begun := inl (TxHandle 1);
       env_scanned := inr (ErrDriver "pq: duplicate key value");
       env_elapsed := 5;
       env_ended := None |} in
  let result :=
    CreateUser newServer
      {| pb.Name := "Alice"; pb.Email := "alice@example.com" |} env in
  let m' := userService (fst (fst result)) in
  let refused :=
    CreateUser newServer
      {| pb.Name := "Alice"; pb.Email := "alice@example.com" |}
      {| env_begun := inr (ErrDriver "connection refused");
         env_scanned := inl 1; env_elapsed := 5; env_ended := None |} in
  fst (snd (fst result)) =
  Some {| pb.UserId := 0; pb.Status := "error";
          pb.Error := "pq: duplicate key value" |} /\
  totalRequests m' = 1 /\ failedRequests m' = 1 /\
  successfulRequests m' = 0 /\
  totalLatency (userService newServer) = 0 /\ totalLatency m' = 5 /\
  totalLatency m' <> totalLatency (userService newServer) /\
  userService (fst (fst refused)) =
  {| totalRequests := 1; successfulRequests := 0; failedRequests := 1;
     totalLatency := 0 |}.
Proof.
  vm_compute. repeat split; discriminate.
Qed.

(** C4. The claim fails on the code.  [CreateUser] and [GetUser] begin a
    transaction and the statement fails: the session is released once, but
    by a commit, since the error handed to the deferred [ReleaseTx] is the
    nil it had when the call was deferred.  The poller, which hands the read
    error to [ReleaseTx] at the point of failure, rolls back. *)
Theorem failed_statement_is_committed :
  let e := ErrDriver "pq: duplicate key value" in
  let tx := TxHandle 1 in
  let created :=
    CreateUser newServer
      {| pb.Name := "Alice"; pb.Email := "alice@example.com" |}
      {| env_begun := inl tx; env_scanned := inr e;
         env_elapsed := 5; env_ended := None |} in
  let got :=
    GetUser newServer {| pb.GetUser_UserId := 999 |}
      {| env_begun := inl tx; env_scanned := inr (ErrDriver "sql: no rows in result set");
         env_elapsed := 5; env_ended := None |} in
  let polled :=
    monitorDatabaseCycle "User Service" (newPool 10)
      {| poll_begun := inl tx; poll_activeConnections := inr e;
         poll_dbSize := inl 0; poll_ended := None |} in
  releases (snd created) = [(tx, true)] /\
  In (DBCommit tx) (snd created) /\ ~ In (DBRollback tx) (snd created) /\
  releases (snd got) = [(tx, true)] /\
  releases (snd (fst polled)) = [(tx, false)].
Proof.
  intros e tx created got polled.
  split; [reflexivity |]. split; [vm_compute; auto 10 |].
  split; [| split; reflexivity].
  vm_compute. intros H.
  repeat (destruct H as [H | H]; [discriminate |]). exact H.
Qed.

(** C9. [CreateUser] never returns an error of its own: whatever happens
    it returns a response and a nil error.  When [BeginTx] or the INSERT
    fails with [e], the response carries the status ["error"] and the
    message of [e]; when the pool is exhausted that message is the one of
    [ErrTooManyConnections]. *)
Theorem CreateUser_reports_failure_in_response :
  (forall (s : server) (req : pb.CreateUserRequest) (env : TxEnv Z),
      snd (fst (CreateUser s req env)) =
      (Some
         match outcomeOf (userPool s) env with
         | BeginFailed e | StatementFailed e =>
             {| pb.UserId := 0; pb.Status := "error"; pb.Error := Error e |}
         | Succeeded =>
             {| pb.UserId :=
                  match env_scanned env with inl id => id | inr _ => 0 end;
                pb.Status := "success"; pb.Error := "" |}
         end,
       None)) /\
  (forall (s : server) (limit : Z) (excess : nat)
          (req : pb.CreateUserRequest) (env : TxEnv Z),
      snd (fst (CreateUser
                  (set_userPool s {| maxConns := limit;
                                     activeConns := limit + Z.of_nat excess |})
                  req env)) =
      (Some {| pb.UserId := 0; pb.Status := "error";
               pb.Error := "too many active database connections" |},
       None)).
Proof.
  split.
  - intros s req env. handler_paths s env; reflexivity.
  - intros s limit excess req env. unfold CreateUser, BeginTx.
    cbn [userPool set_userPool].
    rewrite admission_refused by (simpl; lia). reflexivity.
Qed.

(** ** The counters *)

Lemma successes_cons (u : MetricsUpdate) (us : list MetricsUpdate) :
  successes (u :: us) = (if succeeded u then 1 else 0) + successes us.
Proof.
  unfold successes. cbn [filter]. destruct (succeeded u).
  - cbn [List.length]. lia.
  - lia.
Qed.

Lemma failures_cons (u : MetricsUpdate) (us : list MetricsUpdate) :
  failures (u :: us) = (if succeeded u then 0 else 1) + failures us.
Proof.
  unfold failures. cbn [filter]. destruct (succeeded u); cbn [negb].
  - lia.
  - cbn [List.length]. lia.
Qed.

Lemma successes_failures_length (us : list MetricsUpdate) :
  successes us + failures us = Z.of_nat (List.length us).
Proof.
  induction us as [| u us IH].
  - reflexivity.
  - rewrite successes_cons, failures_cons. cbn [List.length].
    destruct (succeeded u); lia.
Qed.

Lemma successes_nonneg (us : list MetricsUpdate) : 0 <= successes us.
Proof. unfold successes. lia. Qed.

Lemma failures_nonneg (us : list MetricsUpdate) : 0 <= failures us.
Proof. unfold failures. lia. Qed.

Lemma applyUpdate_wf (m : Metrics) (u : MetricsUpdate) :
  wf_Metrics m -> wf_Metrics (applyUpdate m u).
Proof.
  intros (Ht & Hs & Hf & Hl).
  destruct u as [| elapsed [e |]]; unfold wf_Metrics;
    cbn [applyUpdate countBeginFailure countStatement totalRequests
         successfulRequests failedRequests totalLatency];
    (split; [| split; [| split]]); try assumption; apply wrap_uint64_range.
Qed.

(** The counts after a sequence of updates, in the arithmetic of [uint64]. *)
Lemma applyUpdates_counts (us : list MetricsUpdate) :
  forall m : Metrics,
    wf_Metrics m ->
    totalRequests (applyUpdates m us) =
    wrap_uint64 (totalRequests m + Z.of_nat (List.length us)) /\
    successfulRequests (applyUpdates m us) =
    wrap_uint64 (successfulRequests m + successes us) /\
    failedRequests (applyUpdates m us) =
    wrap_uint64 (failedRequests m + failures us).
Proof.
  unfold applyUpdates.
  induction us as [| u us IH]; intros m Hwf.
  - destruct Hwf as (Ht & Hs & Hf & Hl). cbn [fold_left List.length].
    unfold successes, failures. cbn [filter List.length Z.of_nat].
    rewrite !Z.add_0_r, !wrap_uint64_id by assumption. auto.
  - cbn [fold_left].
    destruct (IH (applyUpdate m u) (applyUpdate_wf m u Hwf)) as (Et & Es & Ef).
    rewrite Et, Es, Ef, successes_cons, failures_cons.
    cbn [List.length]. rewrite Nat2Z.inj_succ.
    destruct u as [| elapsed [e |]]; cbn [applyUpdate countBeginFailure
      countStatement totalRequests successfulRequests failedRequests succeeded];
      rewrite ?wrap_uint64_add_l; repeat split; f_equal; lia.
Qed.

Lemma applyUpdate_comm (m : Metrics) (u v : MetricsUpdate) :
  applyUpdate (applyUpdate m u) v = applyUpdate (applyUpdate m v) u.
Proof.
  destruct u as [| eu [xu |]], v as [| ev [xv |]];
    unfold applyUpdate, countBeginFailure, countStatement;
    cbn [totalRequests successfulRequests failedRequests totalLatency];
    rewrite ?wrap_uint64_add_l; f_equal; try reflexivity; f_equal; lia.
Qed.

Lemma applyUpdates_permutation (us us' : list MetricsUpdate) :
  Permutation us us' ->
  forall m : Metrics, applyUpdates m us = applyUpdates m us'.
Proof.
  unfold applyUpdates.
  induction 1 as [| u us us' _ IH | u v us | us us' us'' _ IH1 _ IH2];
    intros m; cbn [fold_left].
  - reflexivity.
  - apply IH.
  - rewrite applyUpdate_comm. reflexivity.
  - rewrite IH1. apply IH2.
Qed.

Lemma applyUpdate_balanced (m : Metrics) (u : MetricsUpdate) :
  balanced m -> balanced (applyUpdate m u).
Proof.
  unfold balanced. intros Hinv.
  destruct u as [| elapsed [e |]];
    unfold applyUpdate, countBeginFailure, countStatement;
    cbn [totalRequests successfulRequests failedRequests totalLatency];
    rewrite Hinv, ?wrap_uint64_add_l, ?wrap_uint64_add_r; f_equal; lia.
Qed.

(** C7. Every exit path of [CreateUser] and of [GetUser], the one where
    the transaction cannot be begun included, leaves the counters of both
    services with [total == successful + failed] (in the arithmetic of
    [uint64]) when it found them so: it runs exactly one update on the
    counters of the user service and leaves those of the order service
    alone.  From counters at zero, [N] successes and [M] failures recorded
    in any order, with [N + M] in the range of the counters, give total
    [N + M], successful [N] and failed [M], and two orders of the same
    updates give the same counters: no update is lost. *)
Theorem counters_consistent :
  (forall (s : server) (req : pb.CreateUserRequest) (env : TxEnv Z),
      let s' := fst (fst (CreateUser s req env)) in
      userService s' = applyUpdate (userService s) (updateOf (userPool s) env) /\
      orderService s' = orderService s /\
      (balanced (userService s) -> balanced (userService s')) /\
      (balanced (orderService s) -> balanced (orderService s'))) /\
  (forall (s : server) (req : pb.GetUserRequest)
          (env : TxEnv (string * string)),
      let s' := fst (fst (GetUser s req env)) in
      userService s' = applyUpdate (userService s) (updateOf (userPool s) env) /\
      orderService s' = orderService s /\
      (balanced (userService s) -> balanced (userService s')) /\
      (balanced (orderService s) -> balanced (orderService s'))) /\
  (forall (us : list MetricsUpdate) (N M : Z),
      successes us = N -> failures us = M -> N + M <= max_uint64 ->
      totalRequests (applyUpdates Metrics0 us) = N + M /\
      successfulRequests (applyUpdates Metrics0 us) = N /\
      failedRequests (applyUpdates Metrics0 us) = M /\
      totalRequests (applyUpdates Metrics0 us) =
      successfulRequests (applyUpdates Metrics0 us) +
      failedRequests (applyUpdates Metrics0 us)) /\
  (forall (us us' : list MetricsUpdate) (m : Metrics),
      Permutation us us' -> applyUpdates m us = applyUpdates m us').
Proof.
  split; [| split; [| split]].
  - intros s req env s'. subst s'.
    destruct (CreateUser_counters s req env) as [Eu Eo].
    rewrite Eu, Eo. repeat split; auto using applyUpdate_balanced.
  - intros s req env s'. subst s'.
    destruct (GetUser_counters s req env) as [Eu Eo].
    rewrite Eu, Eo. repeat split; auto using applyUpdate_balanced.
  - intros us N M HN HM Hsmall.
    assert (Hwf0 : wf_Metrics Metrics0).
    { unfold wf_Metrics, Metrics0. unfold_ints. simpl. lia. }
    destruct (applyUpdates_counts us Metrics0 Hwf0) as (Et & Es & Ef).
    pose proof (successes_failures_length us) as Hlen.
    pose proof (successes_nonneg us) as HsN.
    pose proof (failures_nonneg us) as HfN.
    cbn [Metrics0 totalRequests successfulRequests failedRequests] in Et, Es, Ef.
    rewrite Et, Es, Ef.
    rewrite !wrap_uint64_id by (unfold_ints; lia). lia.
  - intros us us' m Hperm. exact (applyUpdates_permutation us us' Hperm m).
Qed.

Lemma counters_consistent_witness :
  let e := ErrDriver "sql: no rows in result set" in
  let us := [Statement 5 None; BeginFailure; Statement 7 (Some e)] in
  let us' := [BeginFailure; Statement 7 (Some e); Statement 5 None] in
  totalRequests (applyUpdates Metrics0 us) = 1 + 2 /\
  successfulRequests (applyUpdates Metrics0 us) = 1 /\
  failedRequests (applyUpdates Metrics0 us) = 2 /\
  applyUpdates Metrics0 us = applyUpdates Metrics0 us'.
Proof.
  intros e us us'.
  destruct counters_consistent as (_ & _ & Hcount & Hperm).
  destruct (Hcount us 1 2) as (Ht & Hs & Hf & _).
  - reflexivity.
  - reflexivity.
  - unfold max_uint64. simpl. lia.
  - split; [exact Ht |]. split; [exact Hs |]. split; [exact Hf |].
    apply Hperm. subst us us'.
    apply (Permutation_cons_append [BeginFailure; Statement 7 (Some e)]
             (Statement 5 None)).
Defined.

(** ** The database poller *)

Lemma monitorDatabaseCycle_continues (serviceName : string) (p : DBPool)
      (env : PollEnv) :
  snd (monitorDatabaseCycle serviceName p env) = Continue.
Proof.
  unfold monitorDatabaseCycle.
  destruct (BeginTx p (poll_begun env)) as [[p1 [tx | e]] ev1]; [| reflexivity].
  destruct (poll_activeConnections env) as [active | e]; [| reflexivity].
  destruct (poll_dbSize env) as [size | e]; [| reflexivity].
  cbn. destruct (poll_ended env); reflexivity.
Qed.

Lemma monitorDatabase_runs_every_tick (serviceName : string)
      (ticks : list PollEnv) :
  forall p : DBPool,
    List.length (snd (monitorDatabase serviceName p ticks)) = List.length ticks.
Proof.
  induction ticks as [| env rest IH]; intros p.
  - reflexivity.
  - cbn [monitorDatabase].
    pose proof (monitorDatabaseCycle_continues serviceName p env) as Hc.
    destruct (monitorDatabaseCycle serviceName p env) as [[p1 ev] control].
    cbn [snd] in Hc. subst control.
    specialize (IH p1).
    destruct (monitorDatabase serviceName p1 rest) as [p2 evs].
    cbn [snd List.length] in *. rewrite IH. reflexivity.
Qed.

(** C8 (as amended). A cycle of the database poller that acquired a session
    releases it exactly once: with the read error, hence by a rollback, when
    an introspection read fails, and with a success outcome, hence by a
    commit, when both reads succeed.  A failed read is logged and the cycle
    publishes no sample; a sample is published only when the session was
    begun, both reads succeeded and the commit succeeded.  Every cycle hands
    control back to the loop, which runs one cycle per tick, and the poller
    does not touch the request counters. *)
Theorem poller_cycle_releases_and_continues :
  (forall (serviceName : string) (p : DBPool) (env : PollEnv),
      let ev := snd (fst (monitorDatabaseCycle serviceName p env)) in
      snd (monitorDatabaseCycle serviceName p env) = Continue /\
      releases ev =
      match snd (fst (BeginTx p (poll_begun env))) with
      | inr _ => []
      | inl tx =>
          [(tx, match readError env with Some _ => false | None => true end)]
      end /\
      samples ev =
      match snd (fst (BeginTx p (poll_begun env))),
            poll_activeConnections env, poll_dbSize env, poll_ended env with
      | inl _, inl activeConnections, inl dbSize, None =>
          [[("service", FString serviceName);
            ("active_connections", FInt activeConnections);
            ("database_size_mb",
             FFloat (float64_div (float64_of_int dbSize)
                       (float64_of_int 1048576)))]]
      | _, _, _, _ => []
      end /\
      errorLines ev =
      match snd (fst (BeginTx p (poll_begun env))) with
      | inr e =>
          [String.append serviceName
             (String.append ": Failed to begin transaction: " (Error e))]
      | inl _ =>
          match poll_activeConnections env, poll_dbSize env with
          | inr e, _ =>
              [String.append serviceName
                 (String.append ": Failed to get active connections: "
                    (Error e));
               "Rolling back transaction due to error"]
          | inl _, inr e =>
              [String.append serviceName
                 (String.append ": Failed to get database size: " (Error e));
               "Rolling back transaction due to error"]
          | inl _, inl _ =>
              match poll_ended env with
              | Some e =>
                  [String.append serviceName
                     (String.append ": Failed to release transaction: "
                        (Error e))]
              | None => []
              end
          end
      end) /\
  (forall (serviceName : string) (p : DBPool) (ticks : list PollEnv),
      List.length (snd (monitorDatabase serviceName p ticks)) =
      List.length ticks) /\
  (forall (s : server) (ticks : list PollEnv),
      userService (fst (monitorUserDatabase s ticks)) = userService s /\
      orderService (fst (monitorUserDatabase s ticks)) = orderService s).
Proof.
  split; [| split].
  - intros serviceName p env ev. subst ev.
    split; [apply monitorDatabaseCycle_continues |].
    unfold monitorDatabaseCycle, readError, BeginTx.
    destruct (admission p) as [p1 [e |]]; [cbn; auto |].
    destruct (poll_begun env) as [tx | e]; [| cbn; auto].
    destruct (poll_activeConnections env) as [active | e]; [| cbn; auto].
    destruct (poll_dbSize env) as [size | e]; [| cbn; auto].
    destruct (poll_ended env) as [e |]; cbn; auto.
  - intros serviceName p ticks.
    apply monitorDatabase_runs_every_tick.
  - intros s ticks. unfold monitorUserDatabase.
    destruct (monitorDatabase "User Service" (userPool s) ticks) as [p evs].
    split; reflexivity.
Qed.

(** C8 (as stated) fails.  The first introspection read of a cycle fails:
    the poller hands the read error to [ReleaseTx] and the session is rolled
    back, not released with a success outcome. *)
Lemma poller_read_failure_rolls_back_counterexample :
  let tx := TxHandle 1 in
  let e := ErrDriver "pq: canceling statement" in
  let cycle :=
    monitorDatabaseCycle "User Service" (newPool 10)
      {| poll_begun := inl tx; poll_activeConnections := inr e;
         poll_dbSize := inl 0; poll_ended := None |} in
  snd (fst cycle) =
  [DBBegin; DBQueryRow tx countActive;
   Log ErrorLevel
     "User Service: Failed to get active connections: pq: canceling statement"
     [];
   Log ErrorLevel "Rolling back transaction due to error"
     [("error", FString "pq: canceling statement")];
   DBRollback tx] /\
  releases (snd (fst cycle)) = [(tx, false)] /\
  releases (snd (fst cycle)) <> [(tx, true)].
Proof.
  intros tx e cycle. split; [reflexivity |]. split; [reflexivity |].
  discriminate.
Qed.

(** ** Conversions to [float64] and the average latency *)

(** The shifts of the rounding functions, as iterations counted in [nat]. *)
Lemma iter_pos_nat {A : Type} (f : A -> A) (n : positive) :
  forall x : A, iter_pos f n x = Nat.iter (Pos.to_nat n) f x.
Proof.
  induction n as [n IH | n IH |]; intros x; cbn [iter_pos].
  - rewrite !IH, Pos2Nat.inj_xI.
    replace (S (2 * Pos.to_nat n)) with (Pos.to_nat n + (Pos.to_nat n + 1))%nat by lia.
    rewrite !Nat.iter_add. reflexivity.
  - rewrite !IH, Pos2Nat.inj_xO.
    replace (2 * Pos.to_nat n)%nat with (Pos.to_nat n + Pos.to_nat n)%nat by lia.
    rewrite Nat.iter_add. reflexivity.
  - reflexivity.
Qed.

Lemma shr_1_positive (mrs : shr_record) (p : positive) :
  shr_m mrs = Zpos p -> (1 < Pos.to_nat (digits2_pos p))%nat ->
  exists q : positive,
    shr_m (shr_1 mrs) = Zpos q /\
    Pos.to_nat (digits2_pos p) = S (Pos.to_nat (digits2_pos q)).
Proof.
  intros Hm Hd. destruct mrs as [m r s]. cbn [shr_m] in Hm. subst m.
  destruct p as [p | p |]; cbn [shr_1 shr_m digits2_pos] in *.
  - exists p. split; [reflexivity | apply Pos2Nat.inj_succ].
  - exists p. split; [reflexivity | apply Pos2Nat.inj_succ].
  - exfalso. change (Pos.to_nat 1) with 1%nat in Hd. lia.
Qed.

Lemma shr_iter_positive (k : nat) :
  forall (mrs : shr_record) (p : positive),
    shr_m mrs = Zpos p -> (k < Pos.to_nat (digits2_pos p))%nat ->
    exists q : positive,
      shr_m (Nat.iter k shr_1 mrs) = Zpos q /\
      Pos.to_nat (digits2_pos p) = (k + Pos.to_nat (digits2_pos q))%nat.
Proof.
  induction k as [| k IH]; intros mrs p Hm Hk.
  - exists p. split; [exact Hm | reflexivity].
  - destruct (IH mrs p Hm) as (q' & Hq' & Hd'); [lia |].
    destruct (shr_1_positive (Nat.iter k shr_1 mrs) q' Hq') as (q & Hq & Hd);
      [lia |].
    exists q. cbn [Nat.iter]. split; [exact Hq | lia].
Qed.

Lemma shr_fexp_positive (p : positive) (e : Z) (l : location) :
  -1021 <= e ->
  exists (q : positive) (mrs : shr_record) (e' : Z),
    shr_fexp 53 1024 (Zpos p) e l = (mrs, e') /\
    shr_m mrs = Zpos q /\ e <= e'.
Proof.
  intros He. unfold shr_fexp, shr, fexp, emin. cbn [Zdigits2].
  assert (Hrec : shr_m (shr_record_of_loc (Zpos p) l) = Zpos p).
  { destruct l as [| []]; reflexivity. }
  pose proof (Pos2Z.is_pos (digits2_pos p)) as Hd.
  destruct (Z.max (Z.pos (digits2_pos p) + e - 53) (3 - 1024 - 53) - e)
    as [| k | k] eqn:Hn.
  - exists p, (shr_record_of_loc (Zpos p) l), e. split; [reflexivity |]. split; [exact Hrec | lia].
  - rewrite iter_pos_nat.
    destruct (shr_iter_positive (Pos.to_nat k) (shr_record_of_loc (Zpos p) l) p Hrec)
      as (q & Hq & _).
    { assert (Z.pos k < Z.pos (digits2_pos p)) by lia. lia. }
    exists q, (Nat.iter (Pos.to_nat k) shr_1 (shr_record_of_loc (Zpos p) l)), (e + Z.pos k).
    split; [reflexivity |]. split; [exact Hq | lia].
  - exists p, (shr_record_of_loc (Zpos p) l), e. split; [reflexivity |]. split; [exact Hrec | lia].
Qed.

Lemma round_nearest_even_positive (p : positive) (l : location) :
  exists q : positive, round_nearest_even (Zpos p) l = Zpos q.
Proof.
  destruct l as [| []]; cbn [round_nearest_even].
  - exists p; reflexivity.
  - destruct (Z.even (Zpos p)); [exists p | exists (p + 1)%positive]; reflexivity.
  - exists p; reflexivity.
  - exists (p + 1)%positive; reflexivity.
Qed.

Lemma binary_round_aux_positive (p : positive) (e : Z) (l : location) :
  -1021 <= e ->
  (exists (m : positive) (e' : Z),
      binary_round_aux 53 1024 false (Zpos p) e l = S754_finite false m e') \/
  binary_round_aux 53 1024 false (Zpos p) e l = S754_infinity false.
Proof.
  intros He. unfold binary_round_aux.
  destruct (shr_fexp_positive p e l He) as (q1 & mrs1 & e1 & E1 & Hq1 & He1).
  rewrite E1, Hq1.
  destruct (round_nearest_even_positive q1 (loc_of_shr_record mrs1)) as (q2 & E2).
  rewrite E2.
  destruct (shr_fexp_positive q2 e1 loc_Exact) as (q3 & mrs3 & e3 & E3 & Hq3 & He3);
    [lia |].
  rewrite E3, Hq3.
  destruct (e3 <=? 1024 - 53); [left; exists q3, e3; reflexivity | right; reflexivity].
Qed.

Lemma float64_of_int_positive (x : Z) :
  0 < x ->
  (exists (m : positive) (e : Z), float64_of_int x = S754_finite false m e) \/
  float64_of_int x = S754_infinity false.
Proof.
  intros Hx. destruct x as [| p | p]; try lia.
  unfold float64_of_int, binary_normalize, binary_round, shl_align, fexp, emin.
  pose proof (Pos2Z.is_pos (digits2_pos p)) as Hd.
  destruct (Z.max (Z.pos (digits2_pos p) + 0 - 53) (3 - 1024 - 53) - 0)
    as [| k | k] eqn:Hn.
  - apply binary_round_aux_positive. lia.
  - apply binary_round_aux_positive. lia.
  - apply binary_round_aux_positive. lia.
Qed.

(** The number of binary digits of a mantissa, and the bounds the rounding
    functions keep. *)
Lemma digits2_pos_size (p : positive) : digits2_pos p = Pos.size p.
Proof.
  induction p as [p IH | p IH |]; cbn [digits2_pos Pos.size]; congruence.
Qed.

Lemma Zdigits2_log2 (p : positive) :
  Zdigits2 (Zpos p) = Z.log2 (Zpos p) + 1.
Proof.
  cbn [Zdigits2]. rewrite digits2_pos_size.
  destruct p as [p | p |]; cbn [Z.log2 Pos.size]; lia.
Qed.

Lemma Zdigits2_nonneg (m : Z) : 0 <= Zdigits2 m.
Proof. destruct m; cbn [Zdigits2]; lia. Qed.

Lemma Zdigits2_mono (a b : Z) : 0 <= a <= b -> Zdigits2 a <= Zdigits2 b.
Proof.
  intros [Ha Hab].
  destruct a as [| a | a]; [apply Zdigits2_nonneg | | lia].
  destruct b as [| b | b]; try lia.
  rewrite !Zdigits2_log2.
  pose proof (Z.log2_le_mono (Zpos a) (Zpos b) Hab). lia.
Qed.

Lemma Zdigits2_succ (a : Z) : 0 <= a -> Zdigits2 (a + 1) <= Zdigits2 a + 1.
Proof.
  intros Ha. destruct a as [| a | a]; [cbn; lia | | lia].
  change (Zpos a + 1) with (Zpos (a + 1)).
  rewrite !Zdigits2_log2.
  pose proof (Z.log2_le_mono (Zpos (a + 1)) (2 * Zpos a) ltac:(lia)).
  rewrite Z.log2_double in H by lia. lia.
Qed.

Lemma Zdigits2_shiftl (p : positive) (s : Z) :
  0 <= s -> Zdigits2 (Z.shiftl (Zpos p) s) = Zdigits2 (Zpos p) + s.
Proof.
  intros Hs.
  assert (Hpos : 0 < Z.shiftl (Zpos p) s).
  { rewrite Z.shiftl_mul_pow2 by lia. pose proof (Z.pow_pos_nonneg 2 s). nia. }
  destruct (Z.shiftl (Zpos p) s) as [| q | q] eqn:E; try lia.
  rewrite !Zdigits2_log2, <- E, Z.log2_shiftl by lia. lia.
Qed.

Lemma Zdigits2_bound (m bits : Z) :
  0 <= bits -> 0 <= m < 2 ^ bits -> Zdigits2 m <= bits.
Proof.
  intros Hb [Hm Hlt]. destruct m as [| p | p]; [cbn; lia | | lia].
  rewrite Zdigits2_log2.
  pose proof (proj1 (Z.log2_lt_pow2 (Zpos p) bits ltac:(lia)) Hlt). lia.
Qed.

Lemma shr_1_nonneg (mrs : shr_record) :
  0 <= shr_m mrs -> 0 <= shr_m (shr_1 mrs) <= shr_m mrs.
Proof.
  destruct mrs as [m r s]. cbn [shr_m]. intros Hm.
  destruct m as [| [p | p |] | p]; cbn [shr_1 shr_m]; lia.
Qed.

Lemma shr_iter_nonneg (k : nat) (mrs : shr_record) :
  0 <= shr_m mrs -> 0 <= shr_m (Nat.iter k shr_1 mrs) <= shr_m mrs.
Proof.
  intros Hm. induction k as [| k IH].
  - change (Nat.iter 0 shr_1 mrs) with mrs. lia.
  - change (Nat.iter (S k) shr_1 mrs) with (shr_1 (Nat.iter k shr_1 mrs)).
    pose proof (shr_1_nonneg (Nat.iter k shr_1 mrs) (proj1 IH)). lia.
Qed.

Lemma shr_record_of_loc_m (m : Z) (l : location) :
  shr_m (shr_record_of_loc m l) = m.
Proof. destruct l as [| []]; reflexivity. Qed.

Lemma shr_fexp_bounds (m e : Z) (l : location) :
  0 <= m ->
  0 <= shr_m (fst (shr_fexp 53 1024 m e l)) <= m /\
  e <= snd (shr_fexp 53 1024 m e l) <=
  Z.max e (Z.max (Zdigits2 m + e - 53) (-1074)).
Proof.
  intros Hm. unfold shr_fexp, shr, fexp, emin.
  change (3 - 1024 - 53) with (-1074).
  destruct (Z.max (Zdigits2 m + e - 53) (-1074) - e) as [| k | k] eqn:Hn;
    cbn [fst snd]; rewrite ?shr_record_of_loc_m; try lia.
  rewrite iter_pos_nat.
  pose proof (shr_iter_nonneg (Pos.to_nat k) (shr_record_of_loc m l)) as Hk.
  rewrite shr_record_of_loc_m in Hk. specialize (Hk Hm). lia.
Qed.

Lemma round_nearest_even_bounds (m : Z) (l : location) :
  m <= round_nearest_even m l <= m + 1.
Proof.
  destruct l as [| []]; cbn [round_nearest_even]; try lia.
  destruct (Z.even m); lia.
Qed.

(** The result of rounding a non-negative mantissa. *)
Lemma binary_round_aux_bounds (sx : bool) (m e : Z) (l : location) :
  0 <= m ->
  let E1 := Z.max e (Z.max (Zdigits2 m + e - 53) (-1074)) in
  let E2 := Z.max E1 (Z.max (Zdigits2 m + 1 + E1 - 53) (-1074)) in
  match binary_round_aux 53 1024 sx m e l with
  | S754_zero s => s = sx
  | S754_finite s m' e' =>
      s = sx /\ e <= e' <= E2 /\ Zdigits2 (Zpos m') <= Zdigits2 m + 1
  | S754_infinity s => s = sx /\ 971 < E2
  | S754_nan => False
  end.
Proof.
  intros Hm E1 E2. unfold binary_round_aux.
  pose proof (shr_fexp_bounds m e l Hm) as [Hm1 He1].
  destruct (shr_fexp 53 1024 m e l) as [mrs1 e1]. cbn [fst snd] in Hm1, He1.
  pose proof (round_nearest_even_bounds (shr_m mrs1) (loc_of_shr_record mrs1))
    as Hr.
  set (m2 := round_nearest_even (shr_m mrs1) (loc_of_shr_record mrs1)) in *.
  assert (Hm2 : 0 <= m2) by lia.
  pose proof (shr_fexp_bounds m2 e1 loc_Exact Hm2) as [Hm3 He3].
  destruct (shr_fexp 53 1024 m2 e1 loc_Exact) as [mrs3 e3].
  cbn [fst snd] in Hm3, He3.
  assert (Hd2 : Zdigits2 m2 <= Zdigits2 m + 1).
  { pose proof (Zdigits2_mono m2 (m + 1) ltac:(lia)).
    pose proof (Zdigits2_succ m Hm). lia. }
  assert (He3' : e3 <= E2) by (subst E1 E2; lia).
  destruct (shr_m mrs3) as [| m3 | m3] eqn:Em3; [reflexivity | | lia].
  change (1024 - 53) with 971.
  destruct (Z.leb_spec e3 971).
  - split; [reflexivity |]. split; [lia |].
    pose proof (Zdigits2_mono (Zpos m3) m2 ltac:(lia)). lia.
  - split; [reflexivity | lia].
Qed.

Lemma Zpos_iter_xO (p k : positive) :
  Zpos (Pos.iter xO p k) = Z.shiftl (Zpos p) (Zpos k).
Proof.
  cbn [Z.shiftl].
  apply (Pos.iter_swap_gen _ _ Zpos xO (Z.mul 2)). reflexivity.
Qed.

(** A positive [uint64] converts to a positive finite [float64]. *)
Lemma float64_of_uint64 (v : Z) :
  0 < v <= max_uint64 ->
  exists (m : positive) (e : Z),
    float64_of_int v = S754_finite false m e /\
    -52 <= e <= 23 /\ 1 <= Zdigits2 (Zpos m) <= 65.
Proof.
  intros [Hpos Hmax]. destruct v as [| p | p]; try lia.
  assert (Hd : 1 <= Zdigits2 (Zpos p) <= 64).
  { split; [cbn [Zdigits2]; lia |].
    apply Zdigits2_bound; [lia |]. unfold max_uint64 in Hmax. lia. }
  assert (Hround : forall (mz : positive) (ez : Z),
             -52 <= ez <= 0 -> 1 <= Zdigits2 (Zpos mz) <= 64 ->
             Zdigits2 (Zpos mz) + ez <= 64 ->
             exists (m : positive) (e : Z),
               binary_round_aux 53 1024 false (Zpos mz) ez loc_Exact =
               S754_finite false m e /\
               -52 <= e <= 23 /\ 1 <= Zdigits2 (Zpos m) <= 65).
  { intros mz ez Hez Hdz Hsum.
    pose proof (binary_round_aux_bounds false (Zpos mz) ez loc_Exact
                  ltac:(lia)) as Hb.
    cbv zeta in Hb.
    destruct (binary_round_aux_positive mz ez loc_Exact ltac:(lia))
      as [(m & e & E) | E]; rewrite E in Hb |- *.
    - exists m, e. split; [reflexivity |].
      destruct Hb as (_ & He & Hdm). split; [lia |].
      split; [cbn [Zdigits2]; lia | lia].
    - exfalso. destruct Hb as [_ Hb]. lia. }
  unfold float64_of_int, binary_normalize, binary_round, shl_align, fexp, emin.
  change (3 - 1024 - 53) with (-1074).
  change (Zpos (digits2_pos p)) with (Zdigits2 (Zpos p)).
  destruct (Z.max (Zdigits2 (Zpos p) + 0 - 53) (-1074) - 0) as [| k | k] eqn:Hn.
  - apply Hround; lia.
  - apply Hround; lia.
  - assert (Hk : Zdigits2 (Zpos (Pos.iter xO p k)) = Zdigits2 (Zpos p) + Zpos k).
    { rewrite Zpos_iter_xO. apply Zdigits2_shiftl. lia. }
    apply Hround; lia.
Qed.

Lemma SFdiv_core_binary_bounds (m1 m2 : positive) (e1 e2 : Z) :
  let d1 := Zdigits2 (Zpos m1) in
  let d2 := Zdigits2 (Zpos m2) in
  let e' := Z.min (Z.max (d1 + e1 - (d2 + e2) - 53) (-1074)) (e1 - e2) in
  exists (q : Z) (l : location),
    SFdiv_core_binary 53 1024 (Zpos m1) e1 (Zpos m2) e2 = (q, e', l) /\
    0 <= q /\ Zdigits2 q <= d1 + (e1 - e2 - e').
Proof.
  intros d1 d2 e'. unfold SFdiv_core_binary, fexp, emin.
  change (3 - 1024 - 53) with (-1074). fold d1 d2 e'.
  set (m' := match e1 - e2 - e' with
             | 0 => Zpos m1
             | Zpos _ => Z.shiftl (Zpos m1) (e1 - e2 - e')
             | Zneg _ => 0
             end).
  assert (Hs : 0 <= e1 - e2 - e') by (subst e'; lia).
  assert (Hm' : 0 <= m' /\ Zdigits2 m' <= d1 + (e1 - e2 - e')).
  { subst m'. destruct (e1 - e2 - e') as [| s | s] eqn:Es.
    - subst d1. lia.
    - rewrite Zdigits2_shiftl by lia. subst d1. split; [| lia].
      rewrite Z.shiftl_mul_pow2 by lia.
      pose proof (Z.pow_pos_nonneg 2 (Zpos s)). nia.
    - lia. }
  pose proof (Z.div_pos m' (Zpos m2) ltac:(lia) ltac:(lia)) as Hq0.
  assert (Hqm : m' / Zpos m2 <= m').
  { apply Z.div_le_upper_bound; [lia | nia]. }
  unfold Z.div in Hq0, Hqm.
  destruct (Z.div_eucl m' (Zpos m2)) as [q r]. cbn [fst] in Hq0, Hqm.
  exists q, (new_location (Zpos m2) r). split; [reflexivity |].
  split; [exact Hq0 |].
  pose proof (Zdigits2_mono q m' ltac:(lia)). lia.
Qed.

(** The quotient of two [uint64] values, the divisor positive, is a number. *)
Lemma float64_div_uint64_is_number (x y : Z) :
  in_uint64 x -> 0 < y <= max_uint64 ->
  is_number (float64_div (float64_of_int x) (float64_of_int y)) = true.
Proof.
  intros [Hx0 Hx] Hy.
  destruct (float64_of_uint64 y Hy) as (my & ey & Ey & Hey & Hdy).
  unfold float64_div. rewrite Ey.
  destruct (Z.eq_dec x 0) as [-> | Hxne]; [reflexivity |].
  destruct (float64_of_uint64 x ltac:(lia)) as (mx & ex & Ex & Hex & Hdx).
  rewrite Ex. cbn [SFdiv xorb].
  destruct (SFdiv_core_binary_bounds mx my ex ey) as (q & l & Eq & Hq0 & Hdq).
  cbv zeta in Eq, Hdq. rewrite Eq.
  pose proof (binary_round_aux_bounds false q
                (Z.min (Z.max (Zdigits2 (Zpos mx) + ex -
                               (Zdigits2 (Zpos my) + ey) - 53) (-1074))
                       (ex - ey)) l Hq0) as Hb.
  cbv zeta in Hb.
  destruct (binary_round_aux 53 1024 false q _ l); try reflexivity.
  - exfalso. destruct Hb as [_ Hb]. lia.
  - contradiction.
Qed.

Lemma float64_div_zero_by_zero :
  float64_div (float64_of_int 0) (float64_of_int 0) = S754_nan.
Proof. reflexivity. Qed.

Lemma float64_div_positive_by_zero (x : Z) :
  0 < x -> float64_div (float64_of_int x) (float64_of_int 0) = S754_infinity false.
Proof.
  intros Hx. unfold float64_div.
  destruct (float64_of_int_positive x Hx) as [(m & e & E) | E]; rewrite E;
    reflexivity.
Qed.

Lemma float64_div_zero_by_positive (y : Z) :
  0 < y -> float64_div (float64_of_int 0) (float64_of_int y) = S754_zero false.
Proof.
  intros Hy. unfold float64_div.
  destruct (float64_of_int_positive y Hy) as [(m & e & E) | E]; rewrite E;
    reflexivity.
Qed.

(** The value of the unguarded division of [GetServiceMetrics].  For a
    service the server knows, the response carries the three counts as they
    are and the IEEE-754 quotient of the cumulative latency by the
    successful count.  With successful requests the quotient is a number,
    zero when the cumulative latency is zero.  With none, the division is
    by zero and gives NaN when the cumulative latency is zero and plus
    infinity when it is positive. *)
Lemma GetServiceMetrics_quotient (s : server) (name : string) (m : Metrics) :
  (name = "user" /\ m = userService s) \/
  (name = "order" /\ m = orderService s) ->
  wf_Metrics m ->
  let avg :=
    float64_div (float64_of_int (totalLatency m))
                (float64_of_int (successfulRequests m)) in
  GetServiceMetrics s {| pb.ServiceName := name |} =
  (Some {| pb.TotalRequests := totalRequests m;
           pb.SuccessfulRequests := successfulRequests m;
           pb.FailedRequests := failedRequests m;
           pb.AverageLatencyMs := avg |}, None) /\
  (successfulRequests m = 0 -> is_number avg = false) /\
  (successfulRequests m = 0 -> totalLatency m = 0 -> avg = S754_nan) /\
  (successfulRequests m = 0 -> 0 < totalLatency m ->
   avg = S754_infinity false) /\
  (0 < successfulRequests m -> is_number avg = true) /\
  (0 < successfulRequests m -> totalLatency m = 0 -> avg = S754_zero false).
Proof.
  intros Hname (Ht & Hs & Hf & Hl) avg. subst avg.
  split.
  { destruct Hname as [[-> ->] | [-> ->]]; reflexivity. }
  assert (Hnan : successfulRequests m = 0 -> totalLatency m = 0 ->
                 float64_div (float64_of_int (totalLatency m))
                   (float64_of_int (successfulRequests m)) = S754_nan).
  { intros -> ->. apply float64_div_zero_by_zero. }
  assert (Hinf : successfulRequests m = 0 -> 0 < totalLatency m ->
                 float64_div (float64_of_int (totalLatency m))
                   (float64_of_int (successfulRequests m)) =
                 S754_infinity false).
  { intros -> Hpos. apply float64_div_positive_by_zero. exact Hpos. }
  split; [| split; [exact Hnan | split; [exact Hinf |]]].
  - intros Hzero.
    assert (Hcases : totalLatency m = 0 \/ 0 < totalLatency m)
      by (unfold in_uint64 in Hl; lia).
    destruct Hcases as [Hl0 | Hlpos].
    + rewrite (Hnan Hzero Hl0). reflexivity.
    + rewrite (Hinf Hzero Hlpos). reflexivity.
  - split.
    + intros Hpos. apply float64_div_uint64_is_number; [exact Hl |].
      unfold in_uint64 in Hs. lia.
    + intros Hpos ->. apply float64_div_zero_by_positive. exact Hpos.
Qed.

Lemma GetServiceMetrics_quotient_witness :
  let s :=
    {| userPool := newPool 10; orderPool := newPool 10;
       userService := {| totalRequests := 3; successfulRequests := 0;
                         failedRequests := 3; totalLatency := 12 |};
       orderService := Metrics0 |} in
  GetServiceMetrics s {| pb.ServiceName := "user" |} =
  (Some {| pb.TotalRequests := 3; pb.SuccessfulRequests := 0;
           pb.FailedRequests := 3;
           pb.AverageLatencyMs := S754_infinity false |}, None).
Proof.
  intros s.
  assert (Hwf : wf_Metrics (userService s)).
  { unfold wf_Metrics, in_uint64, max_uint64. simpl. lia. }
  destruct (GetServiceMetrics_quotient s "user" (userService s)
              (or_introl (conj eq_refl eq_refl)) Hwf)
    as (Hresp & _ & _ & Hinf & _ & _).
  rewrite Hresp. rewrite Hinf.
  - reflexivity.
  - reflexivity.
  - simpl. lia.
Defined.

(** C2. The claim fails on the code.  With no successful request
    [GetServiceMetrics] divides by zero instead of reporting 0: on a server
    that has served no request the average latency of the user service is
    reported as NaN, and after one [CreateUser] whose INSERT failed in 5 ms
    it is reported as plus infinity.  In both cases the successful count is
    zero, and neither value is the 0 that the claim asks for. *)
Theorem zero_successes_average_is_not_zero :
  let failed :=
    fst (fst (CreateUser newServer
                {| pb.Name := "Alice"; pb.Email := "alice@example.com" |}
                {| env_begun := inl (TxHandle 1);
                   env_scanned := inr (ErrDriver "pq: duplicate key value");
                   env_elapsed := 5;
                   env_ended := None |})) in
  GetServiceMetrics newServer {| pb.ServiceName := "user" |} =
  (Some {| pb.TotalRequests := 0; pb.SuccessfulRequests := 0;
           pb.FailedRequests := 0; pb.AverageLatencyMs := S754_nan |}, None) /\
  GetServiceMetrics failed {| pb.ServiceName := "user" |} =
  (Some {| pb.TotalRequests := 1; pb.SuccessfulRequests := 0;
           pb.FailedRequests := 1;
           pb.AverageLatencyMs := S754_infinity false |}, None) /\
  S754_nan <> S754_zero false /\ S754_infinity false <> S754_zero false.
Proof.
  intros failed. split; [reflexivity |]. split; [vm_compute; reflexivity |].
  split; discriminate.
Qed.

(** * Further properties *)

(** ** The session pool *)

(** X1. Acquiring a session and releasing it, whatever the outcome handed
    in and whatever the commit or the rollback answers, gives the pool back
    as it was. *)
Theorem BeginTx_ReleaseTx_round_trip
        (p : DBPool) (tx : Tx) (err ended : option error) :
  wf_DBPool p -> activeConns p < maxConns p ->
  BeginTx p (inl tx) = (set_activeConns p (activeConns p + 1), inl tx, [DBBegin]) /\
  fst (fst (ReleaseTx (fst (fst (BeginTx p (inl tx)))) tx err ended)) = p.
Proof.
  intros Hwf Hlt. unfold BeginTx. rewrite (admission_granted p Hwf Hlt).
  split; [reflexivity |]. cbn [fst].
  rewrite ReleaseTx_as_step. cbn [pool_step].
  destruct Hwf as [Hmax Hact].
  rewrite releaseSlot_active by (cbn; unfold_ints; lia).
  destruct p as [m a]. pool_arith.
Qed.

Lemma BeginTx_ReleaseTx_round_trip_witness :
  let p := {| maxConns := 10; activeConns := 9 |} in
  BeginTx p (inl (TxHandle 4)) =
  ({| maxConns := 10; activeConns := 10 |}, inl (TxHandle 4), [DBBegin]) /\
  fst (fst (ReleaseTx (fst (fst (BeginTx p (inl (TxHandle 4))))) (TxHandle 4)
              (Some ErrTransactionFailed) None)) = p.
Proof.
  apply (BeginTx_ReleaseTx_round_trip
           {| maxConns := 10; activeConns := 9 |} (TxHandle 4)
           (Some ErrTransactionFailed) None).
  - unfold wf_DBPool, in_int, min_int, max_int. simpl. lia.
  - simpl. lia.
Defined.

(** X2. [NewDBPool] accepts any maximum.  A pool created with a maximum of
    zero or less turns every [BeginTx] away with [ErrTooManyConnections]:
    however many sessions are asked for, none is handed out, the database
    is not called and the pool does not change. *)
Theorem nonpositive_pool_refuses_all (limit : Z) (txs : list Tx) :
  limit <= 0 ->
  NewDBPool None limit = inl (newPool limit) /\
  acquireAll (newPool limit) txs =
  (newPool limit, map (fun _ => inr ErrTooManyConnections) txs) /\
  forall begun : Tx + error,
    BeginTx (newPool limit) begun =
    (newPool limit, inr ErrTooManyConnections, []).
Proof.
  intros Hlimit.
  assert (Hrefused : forall begun : Tx + error,
             BeginTx (newPool limit) begun =
             (newPool limit, inr ErrTooManyConnections, [])).
  { intros begun. unfold BeginTx.
    rewrite admission_refused by (simpl; lia). reflexivity. }
  split; [reflexivity |]. split; [| exact Hrefused].
  induction txs as [| tx rest IH].
  - reflexivity.
  - cbn [acquireAll map]. rewrite Hrefused, IH. reflexivity.
Qed.

Lemma nonpositive_pool_refuses_all_witness :
  acquireAll (newPool 0) [TxHandle 1; TxHandle 2] =
  (newPool 0, [inr ErrTooManyConnections; inr ErrTooManyConnections]).
Proof.
  assert (H0 : 0 <= 0) by lia.
  exact (proj1 (proj2 (nonpositive_pool_refuses_all 0
                         [TxHandle 1; TxHandle 2] H0))).
Defined.

Lemma pool_after_cons (p : DBPool) (st : PoolStep) (steps : list PoolStep) :
  pool_after p (st :: steps) = pool_after (pool_step p st) steps.
Proof. reflexivity. Qed.

Lemma scoped_accounted (K : Z) (steps : list PoolStep) :
  0 <= K <= max_int ->
  forall (p : DBPool) (c : Callers),
    accounted K p c -> scoped p c steps = true ->
    exists c' : Callers,
      callers_after p c steps = Some c' /\
      accounted K (pool_after p steps) c'.
Proof.
  intros HK. induction steps as [| st rest IH]; intros p c Hacc Hscoped.
  - exists c. split; [reflexivity | exact Hacc].
  - cbn [scoped callers_after] in *. rewrite pool_after_cons.
    destruct (callers_step p c st) as [c1 |] eqn:Hstep; [| discriminate].
    exact (IH _ c1 (accounted_step K HK p c c1 st Hacc Hstep) Hscoped).
Qed.

(** X3. In a pool created with a maximum [K], along every interleaving of
    the atomic regions of [BeginTx] and [ReleaseTx] in which sessions are
    released only while held, the active count is exactly the number of
    callers that were admitted and have not yet failed to begin or
    released: no slot is lost and none is counted twice.  The maximum never
    changes. *)
Theorem scoped_pool_accounts_for_callers (K : Z) (steps : list PoolStep) :
  0 <= K <= max_int ->
  scoped (newPool K) {| pending := 0; held := 0 |} steps = true ->
  exists c : Callers,
    callers_after (newPool K) {| pending := 0; held := 0 |} steps = Some c /\
    activeConns (pool_after (newPool K) steps) =
    Z.of_nat (pending c) + Z.of_nat (held c) /\
    maxConns (pool_after (newPool K) steps) = K.
Proof.
  intros HK Hscoped.
  destruct (scoped_accounted K steps HK (newPool K)
              {| pending := 0; held := 0 |}) as (c & Hc & Hmax & Hact & _).
  - unfold accounted. simpl. lia.
  - exact Hscoped.
  - exists c. split; [exact Hc |]. split; [lia | exact Hmax].
Qed.

Lemma scoped_pool_accounts_for_callers_witness :
  exists c : Callers,
    callers_after (newPool 2) {| pending := 0; held := 0 |}
      [StepAdmit; StepAdmit; StepBeginOk; StepAdmit; StepBeginFail] = Some c /\
    activeConns (pool_after (newPool 2)
                   [StepAdmit; StepAdmit; StepBeginOk; StepAdmit; StepBeginFail]) =
    Z.of_nat (pending c) + Z.of_nat (held c) /\
    maxConns (pool_after (newPool 2)
                [StepAdmit; StepAdmit; StepBeginOk; StepAdmit; StepBeginFail]) = 2.
Proof.
  apply (scoped_pool_accounts_for_callers 2).
  - unfold max_int. simpl. lia.
  - reflexivity.
Defined.

(** X4. No caller is turned away while a slot is free: after a scoped
    execution on a pool of maximum [K], the admission check of [BeginTx]
    refuses exactly when the callers waiting for the database and the
    sessions held add up to [K]. *)
Theorem refused_only_when_full (K : Z) (steps : list PoolStep) (c : Callers) :
  0 <= K <= max_int ->
  scoped (newPool K) {| pending := 0; held := 0 |} steps = true ->
  callers_after (newPool K) {| pending := 0; held := 0 |} steps = Some c ->
  (snd (admission (pool_after (newPool K) steps)) = Some ErrTooManyConnections
   <-> Z.of_nat (pending c) + Z.of_nat (held c) = K) /\
  (snd (admission (pool_after (newPool K) steps)) = None
   <-> Z.of_nat (pending c) + Z.of_nat (held c) < K).
Proof.
  intros HK Hscoped Hc.
  destruct (scoped_accounted K steps HK (newPool K)
              {| pending := 0; held := 0 |}) as (c' & Hc' & Hmax & Hact & Hle).
  - unfold accounted. simpl. lia.
  - exact Hscoped.
  - rewrite Hc in Hc'. injection Hc' as <-.
    unfold admission. rewrite Hmax.
    destruct (Z.geb_spec (activeConns (pool_after (newPool K) steps)) K);
      cbn [snd]; split; split; intros Hside; try discriminate;
      try reflexivity; lia.
Qed.

Lemma refused_only_when_full_witness :
  snd (admission (pool_after (newPool 1) [StepAdmit; StepBeginOk])) =
  Some ErrTooManyConnections <-> Z.of_nat 0 + Z.of_nat 1 = 1.
Proof.
  assert (HK : 0 <= 1 <= max_int) by (unfold max_int; simpl; lia).
  exact (proj1 (refused_only_when_full 1 [StepAdmit; StepBeginOk]
                  {| pending := 0; held := 1 |} HK eq_refl eq_refl)).
Defined.

(** ** The handlers of the monitoring service *)

(** What [BeginTx] takes from a pool is given back: by [BeginTx] itself when
    it fails, by the [ReleaseTx] that follows when it succeeds. *)
Lemma BeginTx_slot_returned (p : DBPool) (begun : Tx + error) :
  wf_DBPool p ->
  match BeginTx p begun with
  | (p1, inr _, _) => p1 = p
  | (p1, inl tx, _) =>
      forall err ended : option error,
        fst (fst (ReleaseTx p1 tx err ended)) = p
  end.
Proof.
  intros Hwf. unfold BeginTx.
  destruct (Z_lt_ge_dec (activeConns p) (maxConns p)) as [Hlt | Hge].
  - rewrite (admission_granted p Hwf Hlt).
    destruct begun as [tx | e].
    + intros err ended. rewrite ReleaseTx_as_step. cbn [pool_step].
      destruct Hwf as [Hmax Hact].
      rewrite releaseSlot_active by (cbn; unfold_ints; lia).
      destruct p as [m a]. pool_arith.
    + apply undoAdmit_after_admit; assumption.
  - rewrite admission_refused by lia. reflexivity.
Qed.

Lemma CreateUser_pools (s : server) (req : pb.CreateUserRequest)
      (env : TxEnv Z) :
  wf_DBPool (userPool s) ->
  userPool (fst (fst (CreateUser s req env))) = userPool s /\
  orderPool (fst (fst (CreateUser s req env))) = orderPool s.
Proof.
  intros Hwf.
  pose proof (BeginTx_slot_returned (userPool s) (env_begun env) Hwf) as Hslot.
  unfold CreateUser.
  destruct (BeginTx (userPool s) (env_begun env)) as [[p1 [tx | e]] ev1].
  - specialize (Hslot None (env_ended env)).
    destruct (env_scanned env) as [row | e]; cbn in *;
      rewrite Hslot; split; reflexivity.
  - cbn. subst p1. split; reflexivity.
Qed.

Lemma GetUser_pools (s : server) (req : pb.GetUserRequest)
      (env : TxEnv (string * string)) :
  wf_DBPool (userPool s) ->
  userPool (fst (fst (GetUser s req env))) = userPool s /\
  orderPool (fst (fst (GetUser s req env))) = orderPool s.
Proof.
  intros Hwf.
  pose proof (BeginTx_slot_returned (userPool s) (env_begun env) Hwf) as Hslot.
  unfold GetUser.
  destruct (BeginTx (userPool s) (env_begun env)) as [[p1 [tx | e]] ev1].
  - specialize (Hslot None (env_ended env)).
    destruct (env_scanned env) as [[name email] | e]; cbn in *;
      rewrite Hslot; split; reflexivity.
  - cbn. subst p1. split; reflexivity.
Qed.

(** X5. [CreateUser] and [GetUser] give back the session they take: on
    every path, whatever the database answers, the pool of the user service
    is after the call as it was before, and the pool of the order service
    is not touched. *)
Theorem handlers_return_session
        (s : server) (created : pb.CreateUserRequest) (envC : TxEnv Z)
        (got : pb.GetUserRequest) (envG : TxEnv (string * string)) :
  wf_DBPool (userPool s) ->
  (userPool (fst (fst (CreateUser s created envC))) = userPool s /\
   orderPool (fst (fst (CreateUser s created envC))) = orderPool s) /\
  (userPool (fst (fst (GetUser s got envG))) = userPool s /\
   orderPool (fst (fst (GetUser s got envG))) = orderPool s).
Proof.
  intros Hwf. split.
  - exact (CreateUser_pools s created envC Hwf).
  - exact (GetUser_pools s got envG Hwf).
Qed.

Lemma handlers_return_session_witness :
  let s := set_userPool newServer {| maxConns := 10; activeConns := 4 |} in
  let envC :=
    {| env_begun := inl (TxHandle 1); env_scanned := inl 7;
       env_elapsed := 3; env_ended := Some (ErrDriver "commit failed") |} in
  let envG :=
    {| env_begun := inr (ErrDriver "connection refused");
       env_scanned := inl ("Alice", "alice@example.com");
       env_elapsed := 3; env_ended := None |} in
  userPool (fst (fst (CreateUser s {| pb.Name := "Alice";
                                      pb.Email := "alice@example.com" |} envC))) =
  {| maxConns := 10; activeConns := 4 |} /\
  userPool (fst (fst (GetUser s {| pb.GetUser_UserId := 7 |} envG))) =
  {| maxConns := 10; activeConns := 4 |}.
Proof.
  intros s envC envG.
  assert (Hwf : wf_DBPool (userPool s)).
  { unfold wf_DBPool, in_int, min_int, max_int. simpl. lia. }
  destruct (handlers_return_session s
              {| pb.Name := "Alice"; pb.Email := "alice@example.com" |} envC
              {| pb.GetUser_UserId := 7 |} envG Hwf) as [[HC _] [HG _]].
  split; [exact HC | exact HG].
Defined.

(** X6. [GetUser] never returns an error of its own.  When [BeginTx] or
    the SELECT fails with [e] the response carries the message of [e] and
    nothing else; when the row is found the response carries the id that
    was asked for, the name and the email of the row, and an empty error. *)
Theorem GetUser_reports_in_response
        (s : server) (req : pb.GetUserRequest) (env : TxEnv (string * string)) :
  snd (fst (GetUser s req env)) =
  (Some
     match outcomeOf (userPool s) env with
     | BeginFailed e | StatementFailed e =>
         {| pb.User_UserId := 0; pb.User_Name := ""; pb.User_Email := "";
            pb.User_Error := Error e |}
     | Succeeded =>
         {| pb.User_UserId := pb.GetUser_UserId req;
            pb.User_Name :=
              match env_scanned env with inl row => fst row | inr _ => "" end;
            pb.User_Email :=
              match env_scanned env with inl row => snd row | inr _ => "" end;
            pb.User_Error := "" |}
     end,
   None).
Proof.
  handler_paths s env; reflexivity.
Qed.

(** X7. The calls [CreateUser] and [GetUser] make to the database.  When
    the pool is exhausted the database is not called at all; when the
    transaction cannot be begun there is the one call to begin it; otherwise
    the transaction is begun, the one statement of the handler is run in it
    and the transaction is committed, in that order, whether the statement
    succeeded or not. *)
Theorem handlers_database_calls :
  (forall (s : server) (req : pb.CreateUserRequest) (env : TxEnv Z),
      dbCalls (snd (CreateUser s req env)) =
      match snd (admission (userPool s)), env_begun env with
      | Some _, _ => []
      | None, inr _ => [DBBegin]
      | None, inl tx => [DBBegin; DBQueryRow tx insertUser; DBCommit tx]
      end) /\
  (forall (s : server) (req : pb.GetUserRequest)
          (env : TxEnv (string * string)),
      dbCalls (snd (GetUser s req env)) =
      match snd (admission (userPool s)), env_begun env with
      | Some _, _ => []
      | None, inr _ => [DBBegin]
      | None, inl tx => [DBBegin; DBQueryRow tx selectUser; DBCommit tx]
      end).
Proof.
  split; intros s req env.
  - unfold CreateUser, BeginTx.
    destruct (admission (userPool s)) as [p1 [e |]]; [reflexivity |].
    destruct (env_begun env) as [tx | e]; [| reflexivity].
    destruct (env_scanned env) as [row | e]; reflexivity.
  - unfold GetUser, BeginTx.
    destruct (admission (userPool s)) as [p1 [e |]]; [reflexivity |].
    destruct (env_begun env) as [tx | e]; [| reflexivity].
    destruct (env_scanned env) as [[name email] | e]; reflexivity.
Qed.

(** X8. [GetServiceMetrics] knows the two names ["user"] and ["order"],
    in lower case, and nothing else: for any other name it returns no
    response and the error ["unknown service: "] followed by the name. *)
Theorem GetServiceMetrics_unknown_service (s : server) (name : string) :
  name <> "user" -> name <> "order" ->
  GetServiceMetrics s {| pb.ServiceName := name |} =
  (None, Some (ErrFormatted (String.append "unknown service: " name))).
Proof.
  intros Huser Horder. unfold GetServiceMetrics. cbn [pb.ServiceName].
  destruct (String.eqb_spec name "user") as [E | _]; [contradiction |].
  destruct (String.eqb_spec name "order") as [E | _]; [contradiction |].
  reflexivity.
Qed.

Lemma GetServiceMetrics_unknown_service_witness :
  GetServiceMetrics newServer {| pb.ServiceName := "User" |} =
  (None, Some (ErrFormatted "unknown service: User")).
Proof.
  apply (GetServiceMetrics_unknown_service newServer "User"); discriminate.
Defined.

(** ** [GetDatabaseMetrics] *)

Lemma set_poolOf_same (s : server) (n : PoolName) :
  set_poolOf s n (poolOf s n) = s.
Proof. destruct s, n; reflexivity. Qed.

(** X9. [GetDatabaseMetrics] answers with a response or with an error,
    never both and never neither.  The error is the one of the first step
    that fails: the unknown name, [BeginTx] (so an exhausted pool is
    reported as an error of the call, not in a response), the first read,
    the second read.  The result of the commit is ignored. *)
Theorem GetDatabaseMetrics_result
        (s : server) (req : pb.GetMetricsRequest) (env : PollEnv) :
  snd (fst (GetDatabaseMetrics s req env)) =
  match selectPool (pb.ServiceName req) with
  | None =>
      (None,
       Some (ErrFormatted
               (String.append "unknown service: " (pb.ServiceName req))))
  | Some n =>
      match snd (fst (BeginTx (poolOf s n) (poll_begun env))) with
      | inr e => (None, Some e)
      | inl _ =>
          match poll_activeConnections env, poll_dbSize env with
          | inr e, _ => (None, Some e)
          | inl _, inr e => (None, Some e)
          | inl activeConnections, inl dbSize =>
              (Some {| ActiveConnections := activeConnections;
                       DatabaseSizeMb :=
                         float64_div (float64_of_int dbSize)
                                     (float64_of_int 1048576) |}, None)
          end
      end
  end.
Proof.
  unfold GetDatabaseMetrics.
  destruct (selectPool (pb.ServiceName req)) as [n |]; [| reflexivity].
  destruct (BeginTx (poolOf s n) (poll_begun env)) as [[p1 [tx | e]] ev1];
    [| reflexivity].
  destruct (poll_activeConnections env) as [active | e]; [| reflexivity].
  destruct (poll_dbSize env) as [size | e]; reflexivity.
Qed.

Lemma GetDatabaseMetrics_server (s : server) (req : pb.GetMetricsRequest)
      (env : PollEnv) :
  wf_DBPool (userPool s) -> wf_DBPool (orderPool s) ->
  fst (fst (GetDatabaseMetrics s req env)) = s.
Proof.
  intros Huser Horder. unfold GetDatabaseMetrics.
  destruct (selectPool (pb.ServiceName req)) as [n |]; [| reflexivity].
  assert (Hwf : wf_DBPool (poolOf s n)) by (destruct n; assumption).
  pose proof (BeginTx_slot_returned (poolOf s n) (poll_begun env) Hwf) as Hslot.
  destruct (BeginTx (poolOf s n) (poll_begun env)) as [[p1 [tx | e]] ev1].
  - specialize (Hslot None (poll_ended env)).
    destruct (poll_activeConnections env) as [active | e];
      [destruct (poll_dbSize env) as [size | e] |];
      cbn in *; rewrite Hslot; apply set_poolOf_same.
  - cbn. subst p1. apply set_poolOf_same.
Qed.

(** X10. [GetDatabaseMetrics] leaves the server as it found it: the session
    it takes from the pool of the service is given back on every path, the
    other pool and the request counters are not touched. *)
Theorem GetDatabaseMetrics_leaves_server
        (s : server) (req : pb.GetMetricsRequest) (env : PollEnv) :
  wf_DBPool (userPool s) -> wf_DBPool (orderPool s) ->
  fst (fst (GetDatabaseMetrics s req env)) = s.
Proof.
  exact (GetDatabaseMetrics_server s req env).
Qed.

Lemma GetDatabaseMetrics_leaves_server_witness :
  let s := set_orderPool newServer {| maxConns := 10; activeConns := 9 |} in
  fst (fst (GetDatabaseMetrics s {| pb.ServiceName := "order" |}
              {| poll_begun := inl (TxHandle 1);
                 poll_activeConnections := inl 3;
                 poll_dbSize := inr (ErrDriver "pq: permission denied");
                 poll_ended := None |})) = s.
Proof.
  intros s.
  apply (GetDatabaseMetrics_leaves_server s).
  - unfold wf_DBPool, in_int, min_int, max_int. simpl. lia.
  - unfold wf_DBPool, in_int, min_int, max_int. simpl. lia.
Defined.

(** X11. The calls [GetDatabaseMetrics] makes to the database: none for an
    unknown name or an exhausted pool; otherwise the transaction is begun,
    the first read is made, the second only when the first succeeded, and
    the transaction is committed even when a read failed, the error handed
    to the deferred [ReleaseTx] being the nil of the moment it was
    deferred. *)
Theorem GetDatabaseMetrics_database_calls
        (s : server) (req : pb.GetMetricsRequest) (env : PollEnv) :
  dbCalls (snd (GetDatabaseMetrics s req env)) =
  match selectPool (pb.ServiceName req) with
  | None => []
  | Some n =>
      match snd (admission (poolOf s n)), poll_begun env with
      | Some _, _ => []
      | None, inr _ => [DBBegin]
      | None, inl tx =>
          match poll_activeConnections env with
          | inr _ => [DBBegin; DBQueryRow tx countActive; DBCommit tx]
          | inl _ =>
              [DBBegin; DBQueryRow tx countActive; DBQueryRow tx databaseSize;
               DBCommit tx]
          end
      end
  end.
Proof.
  unfold GetDatabaseMetrics, BeginTx.
  destruct (selectPool (pb.ServiceName req)) as [n |]; [| reflexivity].
  destruct (admission (poolOf s n)) as [p1 [e |]]; [reflexivity |].
  destruct (poll_begun env) as [tx | e]; [| reflexivity].
  destruct (poll_activeConnections env) as [active | e]; [| reflexivity].
  destruct (poll_dbSize env) as [size | e]; reflexivity.
Qed.

(** X12. The size [GetDatabaseMetrics] reports, in megabytes, is a number
    (neither NaN nor an infinity) for every size in bytes from 0 to the
    largest [int64], and it is zero for a size of zero. *)
Theorem DatabaseSizeMb_is_number
        (s : server) (n : PoolName) (name : string) (tx : Tx)
        (activeConnections dbSize : Z) (ended : option error) :
  selectPool name = Some n ->
  snd (admission (poolOf s n)) = None ->
  0 <= dbSize <= max_int ->
  exists size : float64,
    snd (fst (GetDatabaseMetrics s {| pb.ServiceName := name |}
                {| poll_begun := inl tx;
                   poll_activeConnections := inl activeConnections;
                   poll_dbSize := inl dbSize;
                   poll_ended := ended |})) =
    (Some {| ActiveConnections := activeConnections;
             DatabaseSizeMb := size |}, None) /\
    is_number size = true /\
    (dbSize = 0 -> size = S754_zero false).
Proof.
  intros Hname Hadmit Hsize.
  exists (float64_div (float64_of_int dbSize) (float64_of_int 1048576)).
  split; [| split].
  - rewrite GetDatabaseMetrics_result. cbn [pb.ServiceName]. rewrite Hname.
    unfold BeginTx. destruct (admission (poolOf s n)) as [p1 [e |]];
      [discriminate | reflexivity].
  - apply float64_div_uint64_is_number; unfold_ints; lia.
  - intros ->. reflexivity.
Qed.

Lemma DatabaseSizeMb_is_number_witness :
  exists size : float64,
    snd (fst (GetDatabaseMetrics newServer {| pb.ServiceName := "user" |}
                {| poll_begun := inl (TxHandle 1);
                   poll_activeConnections := inl 3;
                   poll_dbSize := inl 8388608;
                   poll_ended := None |})) =
    (Some {| ActiveConnections := 3; DatabaseSizeMb := size |}, None) /\
    is_number size = true /\
    (8388608 = 0 -> size = S754_zero false).
Proof.
  apply (DatabaseSizeMb_is_number newServer UserPool "user" (TxHandle 1)
           3 8388608 None).
  - reflexivity.
  - reflexivity.
  - unfold max_int. simpl. lia.
Defined.

(** ** The poller over many ticks *)

(** X13. The database poller gives back every session it takes: after any
    number of cycles, whatever the database answered in each of them, the
    pool is as it was before the first. *)
Theorem monitorDatabase_returns_sessions
        (serviceName : string) (ticks : list PollEnv) (p : DBPool) :
  wf_DBPool p ->
  fst (monitorDatabase serviceName p ticks) = p.
Proof.
  intros Hwf. induction ticks as [| env rest IH].
  - reflexivity.
  - cbn [monitorDatabase].
    assert (Hcycle : fst (fst (monitorDatabaseCycle serviceName p env)) = p).
    { unfold monitorDatabaseCycle.
      pose proof (BeginTx_slot_returned p (poll_begun env) Hwf) as Hslot.
      destruct (BeginTx p (poll_begun env)) as [[p1 [tx | e]] ev1].
      - destruct (poll_activeConnections env) as [active | e].
        + destruct (poll_dbSize env) as [size | e].
          * specialize (Hslot None (poll_ended env)). cbn in *.
            destruct (poll_ended env); exact Hslot.
          * specialize (Hslot (Some e) (poll_ended env)). exact Hslot.
        + specialize (Hslot (Some e) (poll_ended env)). exact Hslot.
      - exact Hslot. }
    pose proof (monitorDatabaseCycle_continues serviceName p env) as Hc.
    destruct (monitorDatabaseCycle serviceName p env) as [[p1 ev] control].
    cbn [fst snd] in Hcycle, Hc. subst p1 control.
    destruct (monitorDatabase serviceName p rest) as [p2 evs].
    cbn [fst] in *. exact IH.
Qed.

Lemma monitorDatabase_returns_sessions_witness :
  fst (monitorDatabase "User Service" (newPool 10)
         [ {| poll_begun := inl (TxHandle 1);
              poll_activeConnections := inr (ErrDriver "timeout");
              poll_dbSize := inl 0; poll_ended := None |};
           {| poll_begun := inr (ErrDriver "connection refused");
              poll_activeConnections := inl 1;
              poll_dbSize := inl 0; poll_ended := None |};
           {| poll_begun := inl (TxHandle 2);
              poll_activeConnections := inl 1;
              poll_dbSize := inl 4096;
              poll_ended := Some (ErrDriver "commit failed") |} ]) =
  newPool 10.
Proof.
  apply monitorDatabase_returns_sessions.
  unfold wf_DBPool, in_int, min_int, max_int. simpl. lia.
Defined.

(** ** [CreateUser] of the user service *)

Ltac publish_cases written :=
  unfold publish, failuresBefore;
  destruct (written 0%nat) as [e0 |]; [| cbn; auto];
  destruct (written 1%nat) as [e1 |]; [| cbn; auto];
  destruct (written 2%nat) as [e2 |]; cbn; auto.

Lemma publish_writes (written : nat -> option error) (key value : string) :
  kafkaWrites (snd (publish written key value 0 3 None)) =
  Nat.min (S (failuresBefore written 0 3)) 3.
Proof. publish_cases written. Qed.

(** X14. The retry loop of [CreateUser] writes the message at most three
    times and stops at the first write that succeeds.  After the [i]-th
    failed write it pauses for [i] times 100 ms, the third included, so that
    it has paused for 100, 300 or 600 ms after one, two or three failures.
    It fails exactly when the three writes failed, and then with the error
    of the third. *)
Theorem publish_retries (written : nat -> option error) (key value : string) :
  let k := failuresBefore written 0 3 in
  let result := publish written key value 0 3 None in
  kafkaWrites (snd result) = Nat.min (S k) 3 /\
  slept (snd result) = 50 * Z.of_nat k * (Z.of_nat k + 1) /\
  (fst result = None <-> (k < 3)%nat) /\
  (k = 3%nat -> fst result = written 2%nat).
Proof.
  intros k result. subst k result.
  split; [apply publish_writes |].
  unfold publish, failuresBefore.
  destruct (written 0%nat) as [e0 |];
    [| cbn; repeat split; auto; intros; lia].
  destruct (written 1%nat) as [e1 |];
    [| cbn; repeat split; auto; intros; lia].
  destruct (written 2%nat) as [e2 |];
    cbn; repeat split; auto; intros; try lia; try discriminate.
Qed.

(** X15. How [CreateUser] of service1 ends its transaction.  A transaction
    that could not be begun is left alone.  A transaction is rolled back
    when the INSERT fails and when the three writes to Kafka fail; it is
    committed when a write succeeded, and rolled back after that when the
    commit fails; nothing follows a commit that succeeded.  The statement is
    always the first call in the transaction. *)
Theorem CreateUser1_database_calls (req : pb.CreateUserRequest) (env : UserEnv) :
  dbCalls (baseEvents (snd (CreateUser1 req env))) =
  match user_begun env with
  | inr _ => [DBBegin]
  | inl tx =>
      match user_scanned env with
      | inr _ => [DBBegin; DBQueryRow tx insertUser1; DBRollback tx]
      | inl _ =>
          match failuresBefore (user_written env) 0 3 with
          | 3%nat => [DBBegin; DBQueryRow tx insertUser1; DBRollback tx]
          | _ =>
              match user_committed env with
              | Some _ =>
                  [DBBegin; DBQueryRow tx insertUser1; DBCommit tx;
                   DBRollback tx]
              | None => [DBBegin; DBQueryRow tx insertUser1; DBCommit tx]
              end
          end
      end
  end.
Proof.
  unfold CreateUser1.
  destruct (user_begun env) as [tx | eb]; [| reflexivity].
  destruct (user_scanned env) as [id | es].
  - unfold publish, failuresBefore.
    destruct (user_written env 0%nat) as [e0 |];
      [destruct (user_written env 1%nat) as [e1 |];
       [destruct (user_written env 2%nat) as [e2 |] |] |];
      destruct (user_committed env) as [ec |];
      destruct (user_rolledBack env) as [er |]; reflexivity.
  - destruct (user_rolledBack env) as [er |]; reflexivity.
Qed.

(** X16. What [CreateUser] of service1 returns.  Every failure is returned
    as an error of the call with no response: a fixed message when the
    transaction cannot be begun or committed, the message of the cause after
    a prefix when the INSERT or the three writes fail.  A response is
    returned only when the INSERT, one of the three writes and the commit
    succeeded; its id is the generated key converted to [int32]. *)
Theorem CreateUser1_result (req : pb.CreateUserRequest) (env : UserEnv) :
  fst (CreateUser1 req env) =
  match user_begun env with
  | inr _ =>
      (None, Some (ErrFormatted "internal error: failed to begin transaction"))
  | inl _ =>
      match user_scanned env with
      | inr e =>
          (None,
           Some (ErrFormatted (String.append "failed to create user: " (Error e))))
      | inl id =>
          match failuresBefore (user_written env) 0 3, user_written env 2%nat with
          | 3%nat, Some e =>
              (None,
               Some (ErrFormatted
                       (String.append "failed to publish event: " (Error e))))
          | _, _ =>
              match user_committed env with
              | Some _ =>
                  (None,
                   Some (ErrFormatted
                           "internal error: failed to commit transaction"))
              | None => (Some {| Id := wrap_int32 id |}, None)
              end
          end
      end
  end.
Proof.
  unfold CreateUser1.
  destruct (user_begun env) as [tx | eb]; [| reflexivity].
  destruct (user_scanned env) as [id | es]; [| reflexivity].
  unfold publish, failuresBefore.
  destruct (user_written env 0%nat) as [e0 |];
    [destruct (user_written env 1%nat) as [e1 |];
     [destruct (user_written env 2%nat) as [e2 |] |] |];
    destruct (user_committed env) as [ec |]; reflexivity.
Qed.

(** X17. The message is written to Kafka before the transaction is
    committed.  When a write succeeded and the commit then fails, the call
    returns an error and the transaction is rolled back although the event
    of the creation has been published. *)
Theorem CreateUser1_published_then_commit_failed
        (req : pb.CreateUserRequest) (env : UserEnv)
        (tx : Tx) (id : Z) (e : error) :
  user_begun env = inl tx -> user_scanned env = inl id ->
  (failuresBefore (user_written env) 0 3 < 3)%nat ->
  user_committed env = Some e ->
  fst (CreateUser1 req env) =
  (None, Some (ErrFormatted "internal error: failed to commit transaction")) /\
  exists before after : list UserEvent,
    snd (CreateUser1 req env) =
    before ++
    KafkaWrite (decimal id)
      (String.append "User " (String.append (pb.Name req) " created")) ::
    Base (DBCommit tx) :: after /\
    In (Base (DBRollback tx)) after.
Proof.
  intros Hbegun Hscanned Hk Hcommitted.
  split.
  { rewrite CreateUser1_result, Hbegun, Hscanned, Hcommitted.
    destruct (failuresBefore (user_written env) 0 3) as [| [| [| k]]];
      try reflexivity; lia. }
  set (n := (3 + 3 * failuresBefore (user_written env) 0 3)%nat).
  exists (firstn n (snd (CreateUser1 req env))),
         (skipn (n + 2) (snd (CreateUser1 req env))).
  subst n. revert Hk.
  unfold CreateUser1. rewrite Hbegun, Hscanned, Hcommitted.
  unfold publish, failuresBefore.
  destruct (user_written env 0%nat) as [e0 |];
    [destruct (user_written env 1%nat) as [e1 |];
     [destruct (user_written env 2%nat) as [e2 |] |] |];
    intros Hk; try (exfalso; lia);
    destruct (user_rolledBack env) as [er |];
    (split; [reflexivity | cbn; auto]).
Qed.

Lemma CreateUser1_published_then_commit_failed_witness :
  let env :=
    {| user_begun := inl (TxHandle 1); user_scanned := inl 42;
       user_written := fun attempt =>
                         match attempt with
                         | O => Some (ErrDriver "kafka: leader not available")
                         | _ => None
                         end;
       user_committed := Some (ErrDriver "pq: connection lost");
       user_rolledBack := None |} in
  let req := {| pb.Name := "Alice"; pb.Email := "alice@example.com" |} in
  fst (CreateUser1 req env) =
  (None, Some (ErrFormatted "internal error: failed to commit transaction")) /\
  exists before after : list UserEvent,
    snd (CreateUser1 req env) =
    before ++ KafkaWrite (decimal 42) "User Alice created" ::
    Base (DBCommit (TxHandle 1)) :: after /\
    In (Base (DBRollback (TxHandle 1))) after.
Proof.
  intros env req.
  apply (CreateUser1_published_then_commit_failed req env (TxHandle 1) 42
           (ErrDriver "pq: connection lost")).
  - reflexivity.
  - reflexivity.
  - cbn. lia.
  - reflexivity.
Defined.

(** ** The dashboard *)

Lemma js_slice_from_last (A : Type) (l : list A) :
  js_slice_from (-20) l = skipn (List.length l - 20) l.
Proof.
  unfold js_slice_from. cbn [Z.ltb Z.compare]. f_equal. lia.
Qed.

Lemma js_slice_from_length (A : Type) (l : list A) :
  List.length (js_slice_from (-20) l) = Nat.min (List.length l) 20.
Proof.
  rewrite js_slice_from_last, length_skipn. lia.
Qed.

(** The window of a window that received a point is the window of the
    history that received it. *)
Lemma pushPoint_window (A : Type) (history : list A) (point : A) :
  pushPoint (js_slice_from (-20) history) point =
  js_slice_from (-20) (history ++ [point]).
Proof.
  unfold pushPoint. rewrite !js_slice_from_last.
  rewrite !length_app, length_skipn. cbn [List.length].
  destruct (Nat.le_gt_cases (List.length history) 20) as [Hshort | Hlong].
  - replace (List.length history - 20)%nat with 0%nat by lia.
    cbn [skipn]. f_equal. lia.
  - replace (List.length history - (List.length history - 20) + 1 - 20)%nat
      with 1%nat by lia.
    replace (List.length history + 1 - 20)%nat
      with (1 + (List.length history - 20))%nat by lia.
    rewrite <- skipn_skipn.
    rewrite (skipn_app (List.length history - 20)).
    replace (List.length history - 20 - List.length history)%nat
      with 0%nat by lia.
    reflexivity.
Qed.

Section DashboardProperties.

Variable JsValue : Type.

Lemma receiveUpdates_windows (updates : list (string * MetricsUpdateData JsValue)) :
  forall (m : DashboardMetrics JsValue)
         (hs : list (string * ServiceSample JsValue))
         (hd : list (string * DatabaseSample JsValue))
         (hk : list (string * KafkaSample JsValue)),
    userServiceSeries m = js_slice_from (-20) hs ->
    databaseSeries m = js_slice_from (-20) hd ->
    kafkaSeries m = js_slice_from (-20) hk ->
    userServiceSeries (receiveUpdates m updates) =
    js_slice_from (-20) (hs ++ servicePoints updates) /\
    databaseSeries (receiveUpdates m updates) =
    js_slice_from (-20) (hd ++ databasePoints updates) /\
    kafkaSeries (receiveUpdates m updates) =
    js_slice_from (-20) (hk ++ kafkaPoints updates) /\
    orderServiceSeries (receiveUpdates m updates) = orderServiceSeries m.
Proof.
  induction updates as [| [timestamp data] rest IH]; intros m hs hd hk Hs Hd Hk.
  - cbn. rewrite !app_nil_r. auto.
  - unfold receiveUpdates in *. cbn [fold_left fst snd].
    unfold servicePoints, databasePoints, kafkaPoints in *.
    cbn [flat_map fst snd].
    rewrite !app_assoc.
    apply (IH (handleMetricsUpdate timestamp data m)).
    + cbn. destruct (data_serviceMetrics data) as [sample |].
      * rewrite Hs. apply pushPoint_window.
      * rewrite app_nil_r. exact Hs.
    + cbn. destruct (data_databaseMetrics data) as [sample |].
      * rewrite Hd. apply pushPoint_window.
      * rewrite app_nil_r. exact Hd.
    + cbn. destruct (data_kafkaMetrics data) as [sample |].
      * rewrite Hk. apply pushPoint_window.
      * rewrite app_nil_r. exact Hk.
Qed.

(** X18. The dashboard keeps a window of the 20 most recent points of each
    series.  After any sequence of updates the series of the user service,
    of the database and of Kafka hold the last 20 points received for them,
    oldest first, or all of them when fewer than 20 were received: never
    more than 20 points. *)
Theorem dashboard_keeps_last_20
        (updates : list (string * MetricsUpdateData JsValue)) :
  let m := receiveUpdates emptyDashboard updates in
  userServiceSeries m =
  skipn (List.length (servicePoints updates) - 20) (servicePoints updates) /\
  databaseSeries m =
  skipn (List.length (databasePoints updates) - 20) (databasePoints updates) /\
  kafkaSeries m =
  skipn (List.length (kafkaPoints updates) - 20) (kafkaPoints updates) /\
  (List.length (userServiceSeries m) <= 20)%nat /\
  (List.length (databaseSeries m) <= 20)%nat /\
  (List.length (kafkaSeries m) <= 20)%nat.
Proof.
  intros m. subst m.
  destruct (receiveUpdates_windows updates emptyDashboard [] [] [])
    as (Hs & Hd & Hk & _); try reflexivity.
  cbn [app] in Hs, Hd, Hk.
  rewrite Hs, Hd, Hk, <- !js_slice_from_last, !js_slice_from_length.
  repeat split; lia.
Qed.

(** X19. No update reaches the series of the order service: whatever the
    updates carry, it stays as it was (empty, from the start), and the chart
    of the order service can only show the points of the user service.  An
    update that lacks a key leaves the series of that key as it was. *)
Theorem dashboard_order_series_never_fed
        (m : DashboardMetrics JsValue)
        (updates : list (string * MetricsUpdateData JsValue))
        (timestamp : string) (data : MetricsUpdateData JsValue) :
  orderServiceSeries (receiveUpdates m updates) = orderServiceSeries m /\
  orderServiceSeries (receiveUpdates emptyDashboard updates) = [] /\
  (data_serviceMetrics data = None ->
   userServiceSeries (handleMetricsUpdate timestamp data m) =
   userServiceSeries m) /\
  (data_databaseMetrics data = None ->
   databaseSeries (handleMetricsUpdate timestamp data m) = databaseSeries m) /\
  (data_kafkaMetrics data = None ->
   kafkaSeries (handleMetricsUpdate timestamp data m) = kafkaSeries m).
Proof.
  assert (Horder : forall m0 : DashboardMetrics JsValue,
             orderServiceSeries (receiveUpdates m0 updates) =
             orderServiceSeries m0).
  { unfold receiveUpdates. induction updates as [| u rest IH]; intros m0.
    - reflexivity.
    - cbn [fold_left]. rewrite IH. reflexivity. }
  split; [apply Horder |]. split; [rewrite Horder; reflexivity |].
  cbn. repeat split; intros ->; reflexivity.
Qed.

End DashboardProperties.

(** ** The listeners of [WebSocketService] *)

Lemma existsb_eqb_In (cb : Callback) (callbacks : list Callback) :
  existsb (Nat.eqb cb) callbacks = true <-> In cb callbacks.
Proof.
  rewrite existsb_exists. split.
  - intros (c & Hin & Heq). apply Nat.eqb_eq in Heq. subst c. exact Hin.
  - intros Hin. exists cb. split; [exact Hin | apply Nat.eqb_refl].
Qed.

Lemma set_add_NoDup (cb : Callback) (callbacks : list Callback) :
  NoDup callbacks -> NoDup (set_add cb callbacks).
Proof.
  intros Hnodup. unfold set_add.
  destruct (existsb (Nat.eqb cb) callbacks) eqn:Hin; [exact Hnodup |].
  apply NoDup_app; [exact Hnodup | repeat constructor; intros [] |].
  intros c Hc [Heq | []]. subst c.
  apply existsb_eqb_In in Hc. congruence.
Qed.

Lemma set_add_In (cb : Callback) (callbacks : list Callback) :
  In cb (set_add cb callbacks).
Proof.
  unfold set_add.
  destruct (existsb (Nat.eqb cb) callbacks) eqn:Hin.
  - apply existsb_eqb_In. exact Hin.
  - apply in_or_app. right. left. reflexivity.
Qed.

Lemma set_add_twice (cb : Callback) (callbacks : list Callback) :
  set_add cb (set_add cb callbacks) = set_add cb callbacks.
Proof.
  unfold set_add at 1.
  rewrite (proj2 (existsb_eqb_In cb (set_add cb callbacks)) (set_add_In cb callbacks)).
  reflexivity.
Qed.

Lemma set_delete_In (cb c : Callback) (callbacks : list Callback) :
  In c (set_delete cb callbacks) <-> In c callbacks /\ c <> cb.
Proof.
  unfold set_delete. rewrite filter_In, negb_true_iff, Nat.eqb_neq. tauto.
Qed.

Lemma set_delete_absent (cb : Callback) (callbacks : list Callback) :
  ~ In cb callbacks -> set_delete cb callbacks = callbacks.
Proof.
  intros Hout. unfold set_delete. induction callbacks as [| c rest IH].
  - reflexivity.
  - cbn [filter]. destruct (Nat.eqb_spec c cb) as [-> | Hne].
    + exfalso. apply Hout. left. reflexivity.
    + cbn [negb]. rewrite IH; [reflexivity |].
      intros Hin. apply Hout. right. exact Hin.
Qed.

Lemma set_delete_add (cb : Callback) (callbacks : list Callback) :
  ~ In cb callbacks -> set_delete cb (set_add cb callbacks) = callbacks.
Proof.
  intros Hout. unfold set_add.
  destruct (existsb (Nat.eqb cb) callbacks) eqn:Hin.
  - apply existsb_eqb_In in Hin. contradiction.
  - unfold set_delete. rewrite filter_app. cbn [filter].
    rewrite Nat.eqb_refl. cbn [negb]. rewrite app_nil_r.
    apply (set_delete_absent cb callbacks Hout).
Qed.

Lemma serviceCall_wf (ws : WebSocketService) (c : ServiceCall) :
  wf_listeners ws -> wf_listeners (serviceCall ws c).
Proof.
  intros Hwf. destruct c as [| event cb | event cb |]; cbn [serviceCall].
  - unfold connect. destruct (socket ws); exact Hwf.
  - intros e callbacks. unfold subscribe. cbn [listeners].
    destruct (String.eqb e event); [| apply Hwf].
    intros Hsome. injection Hsome as <-. apply set_add_NoDup.
    destruct (listeners ws event) as [l |] eqn:Hl; [| constructor].
    exact (Hwf event l Hl).
  - unfold unsubscribe.
    destruct (listeners ws event) as [l |] eqn:Hl; [| exact Hwf].
    intros e callbacks. cbn [listeners].
    destruct (String.eqb e event); [| apply Hwf].
    intros Hsome. injection Hsome as <-.
    apply NoDup_filter. exact (Hwf event l Hl).
  - unfold disconnect. destruct (socket ws); [| exact Hwf].
    intros e callbacks. cbn [listeners]. discriminate.
Qed.

(** X20. Whatever the clients of the service did since it was created
    (connect, subscribe, unsubscribe, disconnect, in any order and any
    number of times), a notification calls every subscribed callback at most
    once. *)
Theorem notification_calls_each_callback_once
        (D : Type) (calls : list ServiceCall) (event : string) (data : D) :
  NoDup (map fst
           (notifyListeners (fold_left serviceCall calls newWebSocketService)
              event data)).
Proof.
  assert (Hwf : wf_listeners (fold_left serviceCall calls newWebSocketService)).
  { assert (Hgen : forall ws, wf_listeners ws ->
                     wf_listeners (fold_left serviceCall calls ws)).
    { induction calls as [| c rest IH]; intros ws Hws.
      - exact Hws.
      - cbn [fold_left]. apply IH. apply serviceCall_wf. exact Hws. }
    apply Hgen. intros e callbacks. cbn. discriminate. }
  unfold notifyListeners.
  destruct (listeners (fold_left serviceCall calls newWebSocketService) event)
    as [callbacks |] eqn:Hl; [| constructor].
  rewrite map_map. cbn [fst]. rewrite map_id. exact (Hwf event callbacks Hl).
Qed.

(** X21. Subscribing is idempotent and does not disturb the others: after
    [subscribe(event, cb)] a notification of [event] calls [cb], once, after
    the callbacks that were subscribed before it, and a second
    [subscribe(event, cb)] changes nothing; the notifications of the other
    events are as before. *)
Theorem subscribe_idempotent
        (D : Type) (ws : WebSocketService) (event other : string)
        (cb : Callback) (data : D) :
  wf_listeners ws -> other <> event ->
  In (cb, data) (notifyListeners (subscribe ws event cb) event data) /\
  count_occ Nat.eq_dec
    (map fst (notifyListeners (subscribe ws event cb) event data)) cb = 1%nat /\
  (exists added : list (Callback * D),
      notifyListeners (subscribe ws event cb) event data =
      notifyListeners ws event data ++ added) /\
  notifyListeners (subscribe (subscribe ws event cb) event cb) event data =
  notifyListeners (subscribe ws event cb) event data /\
  notifyListeners (subscribe ws event cb) other data =
  notifyListeners ws other data.
Proof.
  intros Hwf Hother.
  assert (Hnow : notifyListeners (subscribe ws event cb) event data =
                 map (fun c => (c, data))
                     (set_add cb match listeners ws event with
                                 | Some l => l
                                 | None => []
                                 end)).
  { unfold notifyListeners, subscribe. cbn [listeners].
    rewrite String.eqb_refl. reflexivity. }
  assert (Hnodup : NoDup match listeners ws event with
                         | Some l => l
                         | None => []
                         end).
  { destruct (listeners ws event) as [l |] eqn:Hl;
      [exact (Hwf event l Hl) | constructor]. }
  split; [| split; [| split; [| split]]].
  - rewrite Hnow. apply in_map_iff. exists cb. split; [reflexivity |].
    apply set_add_In.
  - rewrite Hnow, map_map. cbn [fst]. rewrite map_id.
    apply NoDup_count_occ'.
    + apply set_add_NoDup. exact Hnodup.
    + apply set_add_In.
  - rewrite Hnow. unfold notifyListeners, set_add.
    destruct (listeners ws event) as [l |].
    + destruct (existsb (Nat.eqb cb) l).
      * exists []. rewrite app_nil_r. reflexivity.
      * exists [(cb, data)]. rewrite map_app. reflexivity.
    + exists [(cb, data)]. reflexivity.
  - unfold notifyListeners, subscribe. cbn [listeners].
    rewrite String.eqb_refl. rewrite set_add_twice. reflexivity.
  - unfold notifyListeners, subscribe. cbn [listeners].
    rewrite (proj2 (String.eqb_neq other event) Hother). reflexivity.
Qed.

Lemma subscribe_idempotent_witness :
  let ws := subscribe newWebSocketService "metrics" 1%nat in
  In (2%nat, 7) (notifyListeners (subscribe ws "metrics" 2%nat) "metrics" 7) /\
  count_occ Nat.eq_dec
    (map fst (notifyListeners (subscribe ws "metrics" 2%nat) "metrics" 7))
    2%nat = 1%nat /\
  (exists added : list (Callback * Z),
      notifyListeners (subscribe ws "metrics" 2%nat) "metrics" 7 =
      notifyListeners ws "metrics" 7 ++ added) /\
  notifyListeners (subscribe (subscribe ws "metrics" 2%nat) "metrics" 2%nat)
    "metrics" 7 =
  notifyListeners (subscribe ws "metrics" 2%nat) "metrics" 7 /\
  notifyListeners (subscribe ws "metrics" 2%nat) "error" 7 =
  notifyListeners ws "error" 7.
Proof.
  intros ws.
  apply (subscribe_idempotent Z ws "metrics" "error" 2%nat 7).
  - apply (serviceCall_wf newWebSocketService (CallSubscribe "metrics" 1%nat)).
    intros e callbacks. cbn. discriminate.
  - discriminate.
Defined.

(** X22. [unsubscribe(event, cb)] removes [cb] and nothing else: [cb] is no
    longer called for [event], every other callback is called for [event]
    exactly when it was before, and the other events are not affected.
    Unsubscribing a callback right after it was subscribed for the first
    time gives back the notifications of before. *)
Theorem unsubscribe_removes_only
        (D : Type) (ws : WebSocketService) (event other : string)
        (cb c : Callback) (data : D) :
  c <> cb -> other <> event ->
  ~ In cb (map fst (notifyListeners (unsubscribe ws event cb) event data)) /\
  (In c (map fst (notifyListeners (unsubscribe ws event cb) event data)) <->
   In c (map fst (notifyListeners ws event data))) /\
  notifyListeners (unsubscribe ws event cb) other data =
  notifyListeners ws other data /\
  (~ In cb (map fst (notifyListeners ws event data)) ->
   notifyListeners (unsubscribe (subscribe ws event cb) event cb) event data =
   notifyListeners ws event data).
Proof.
  intros Hc Hother.
  assert (Hmap : forall l : list Callback,
             map fst (map (fun x : Callback => (x, data)) l) = l).
  { intros l. rewrite map_map. cbn [fst]. apply map_id. }
  split; [| split; [| split]].
  - unfold notifyListeners, unsubscribe.
    destruct (listeners ws event) as [l |] eqn:Hl.
    + cbn [listeners]. rewrite String.eqb_refl, Hmap.
      intros Hin. apply set_delete_In in Hin. destruct Hin as [_ Hne].
      apply Hne. reflexivity.
    + rewrite Hl. intros [].
  - unfold notifyListeners, unsubscribe.
    destruct (listeners ws event) as [l |] eqn:Hl.
    + cbn [listeners]. rewrite String.eqb_refl, !Hmap, set_delete_In. tauto.
    + rewrite Hl. tauto.
  - unfold notifyListeners, unsubscribe.
    destruct (listeners ws event) as [l |] eqn:Hl; [| reflexivity].
    cbn [listeners]. rewrite (proj2 (String.eqb_neq other event) Hother).
    reflexivity.
  - intros Hout.
    unfold notifyListeners, unsubscribe, subscribe in *. cbn [listeners].
    rewrite String.eqb_refl. cbn [listeners]. rewrite String.eqb_refl.
    destruct (listeners ws event) as [l |] eqn:Hl.
    + rewrite Hmap in Hout. rewrite (set_delete_add cb l Hout). reflexivity.
    + rewrite (set_delete_add cb []); [reflexivity | intros []].
Qed.

Lemma unsubscribe_removes_only_witness :
  let ws := subscribe (subscribe newWebSocketService "metrics" 1%nat)
                      "metrics" 2%nat in
  ~ In 1%nat (map fst (notifyListeners (unsubscribe ws "metrics" 1%nat)
                         "metrics" 7)) /\
  (In 2%nat (map fst (notifyListeners (unsubscribe ws "metrics" 1%nat)
                        "metrics" 7)) <->
   In 2%nat (map fst (notifyListeners ws "metrics" 7))).
Proof.
  intros ws.
  destruct (unsubscribe_removes_only Z ws "metrics" "error" 1%nat 2%nat 7)
    as (Hgone & Hkept & _).
  - discriminate.
  - discriminate.
  - split; [exact Hgone | exact Hkept].
Defined.

(** X23. [disconnect()] acts only on a service that has a socket: it then
    drops the socket and the subscriptions of every client, for every event,
    so that no callback is called any more.  On a service without a socket
    it does nothing, and the subscriptions made so far stay. *)
Theorem disconnect_clears_when_connected
        (D : Type) (ws : WebSocketService) (event : string) (data : D) :
  (socket ws <> None ->
   socket (disconnect ws) = None /\
   notifyListeners (disconnect ws) event data = [] /\
   notifyListeners (connect (disconnect ws)) event data = []) /\
  (socket ws = None ->
   disconnect ws = ws /\
   notifyListeners (disconnect ws) event data =
   notifyListeners ws event data).
Proof.
  unfold disconnect. split.
  - intros Hsocket. destruct (socket ws) as [sock |]; [| contradiction].
    repeat split.
  - intros Hsocket. rewrite Hsocket. split; reflexivity.
Qed.

Lemma disconnect_clears_when_connected_witness :
  let subscribed := subscribe newWebSocketService "metrics" 1%nat in
  notifyListeners (disconnect (connect subscribed)) "metrics" 7 = [] /\
  notifyListeners (disconnect subscribed) "metrics" 7 = [(1%nat, 7)].
Proof.
  intros subscribed.
  destruct (disconnect_clears_when_connected Z (connect subscribed) "metrics" 7)
    as [Hconnected _].
  destruct (disconnect_clears_when_connected Z subscribed "metrics" 7)
    as [_ Hidle].
  split.
  - apply Hconnected. discriminate.
  - rewrite (proj2 (Hidle eq_refl)). reflexivity.
Defined.

(** X24. The handler of the event [disconnect] never reconnects.  While the
    service holds a socket, [handleDisconnect] leaves the service as it is
    for every reason, ["io server disconnect"] included: the [connect()] it
    calls returns at once because the socket is still set.  Likewise a
    second [connect()] does nothing. *)
Theorem handleDisconnect_never_reconnects
        (D : Type) (ws : WebSocketService) (reason : string) :
  socket ws <> None ->
  handleDisconnect ws reason = ws /\
  onSocketEvent ws (@OnDisconnect D reason) = (ws, []) /\
  connect ws = ws /\
  connect (connect ws) = connect ws.
Proof.
  intros Hsocket.
  assert (Hconnect : connect ws = ws).
  { unfold connect. destruct (socket ws); [reflexivity | contradiction]. }
  assert (Hhandle : handleDisconnect ws reason = ws).
  { unfold handleDisconnect.
    destruct (String.eqb reason "io server disconnect");
      [exact Hconnect | reflexivity]. }
  split; [exact Hhandle |]. split; [| split].
  - cbn [onSocketEvent]. rewrite Hhandle. reflexivity.
  - exact Hconnect.
  - rewrite Hconnect. exact Hconnect.
Qed.

Lemma handleDisconnect_never_reconnects_witness :
  let ws := connect (subscribe newWebSocketService "metrics" 1%nat) in
  handleDisconnect ws "io server disconnect" = ws /\
  onSocketEvent ws (@OnDisconnect Z "io server disconnect") = (ws, []) /\
  connect ws = ws /\
  connect (connect ws) = connect ws.
Proof.
  intros ws.
  apply (handleDisconnect_never_reconnects Z ws "io server disconnect").
  discriminate.
Defined.

(** ** The accounting of the load test *)

Lemma recordEndpoints_counts (rs : list EndpointResult) :
  forall t : LoadTally,
    in_uint64 (load_totalRequests t) ->
    in_uint64 (load_successfulRequests t) ->
    in_uint64 (load_failedRequests t) ->
    load_totalRequests (recordEndpoints t rs) =
    wrap_uint64 (load_totalRequests t + Z.of_nat (List.length rs)) /\
    load_successfulRequests (recordEndpoints t rs) =
    wrap_uint64 (load_successfulRequests t +
                 Z.of_nat (List.length
                             (filter (fun r => negb (endpointFailed r)) rs))) /\
    load_failedRequests (recordEndpoints t rs) =
    wrap_uint64 (load_failedRequests t +
                 Z.of_nat (List.length (filter endpointFailed rs))).
Proof.
  unfold recordEndpoints.
  induction rs as [| r rest IH]; intros t Ht Hs Hf.
  - cbn [fold_left List.length filter Z.of_nat].
    rewrite !Z.add_0_r, !wrap_uint64_id by assumption. auto.
  - cbn [fold_left filter].
    assert (Hnext : in_uint64 (load_totalRequests (recordEndpoint t r)) /\
                    in_uint64 (load_successfulRequests (recordEndpoint t r)) /\
                    in_uint64 (load_failedRequests (recordEndpoint t r))).
    { unfold recordEndpoint. destruct (endpoint_err r);
        cbn [load_totalRequests load_successfulRequests load_failedRequests];
        (split; [| split]); try assumption; apply wrap_uint64_range. }
    destruct Hnext as (Ht' & Hs' & Hf').
    destruct (IH (recordEndpoint t r) Ht' Hs' Hf') as (Et & Es & Ef).
    rewrite Et, Es, Ef. cbn [List.length]. rewrite Nat2Z.inj_succ.
    unfold recordEndpoint, endpointFailed.
    destruct (endpoint_err r) as [e |];
      cbn [load_totalRequests load_successfulRequests load_failedRequests
           negb List.length];
      rewrite ?Nat2Z.inj_succ, ?wrap_uint64_add_l;
      (split; [| split]); f_equal; lia.
Qed.

Lemma wrap_int_range (z : Z) : in_int (wrap_int z).
Proof.
  unfold_ints.
  pose proof (Z.mod_pos_bound (z + 9223372036854775808) 18446744073709551616).
  lia.
Qed.

Lemma wrap_int_add_l (a b : Z) : wrap_int (wrap_int a + b) = wrap_int (a + b).
Proof.
  unfold wrap_int. f_equal.
  replace ((a + 2 ^ 63) mod 2 ^ 64 - 2 ^ 63 + b + 2 ^ 63)
    with ((a + 2 ^ 63) mod 2 ^ 64 + b) by lia.
  rewrite Zplus_mod_idemp_l. f_equal. lia.
Qed.

Lemma quot_in_int (a n : Z) : in_int a -> 0 < n -> in_int (Z.quot a n).
Proof.
  intros Ha Hn. unfold in_int in *.
  destruct (Z_le_gt_dec 0 a) as [Hpos | Hneg].
  - pose proof (Z.quot_pos a n Hpos Hn) as H0.
    assert (Z.quot a n <= a).
    { rewrite Z.quot_div_nonneg by lia.
      apply Z.div_le_upper_bound; [lia | nia]. }
    unfold min_int in *. lia.
  - assert (E : Z.quot a n = - Z.quot (- a) n).
    { rewrite Z.quot_opp_l by lia. lia. }
    assert (H0 : 0 <= Z.quot (- a) n) by (apply Z.quot_pos; lia).
    assert (Z.quot (- a) n <= - a).
    { rewrite Z.quot_div_nonneg by lia.
      apply Z.div_le_upper_bound; [lia | nia]. }
    unfold max_int in *. lia.
Qed.

Lemma recordEndpoints_latency (rs : list EndpointResult) :
  forall t : LoadTally,
    in_int (load_totalLatency t) ->
    load_totalLatency (recordEndpoints t rs) =
    wrap_int (load_totalLatency t + successLatency rs).
Proof.
  unfold recordEndpoints, successLatency, succeededCalls.
  induction rs as [| r rest IH]; intros t Ht.
  - cbn [fold_left filter fold_right]. rewrite Z.add_0_r.
    symmetry. apply wrap_int_id. exact Ht.
  - cbn [fold_left filter].
    assert (Hstep : load_totalLatency (recordEndpoint t r) =
                    if endpointFailed r then load_totalLatency t
                    else wrap_int (load_totalLatency t + endpoint_latency r)).
    { unfold recordEndpoint, endpointFailed.
      destruct (endpoint_err r); reflexivity. }
    destruct (endpointFailed r); cbn [negb fold_right].
    + rewrite IH by (rewrite Hstep; exact Ht). rewrite Hstep. reflexivity.
    + rewrite IH by (rewrite Hstep; apply wrap_int_range).
      rewrite Hstep, wrap_int_add_l. f_equal. lia.
Qed.

Lemma recordEndpoints_userFailures (rs : list EndpointResult) :
  forall t : LoadTally,
    in_uint64 (load_userFailures t) ->
    load_userFailures (recordEndpoints t rs) =
    wrap_uint64 (load_userFailures t +
                 Z.of_nat (List.length (filter userOperationFailed rs))).
Proof.
  unfold recordEndpoints.
  induction rs as [| r rest IH]; intros t Ht.
  - cbn [fold_left List.length filter Z.of_nat].
    rewrite Z.add_0_r, wrap_uint64_id by assumption. reflexivity.
  - cbn [fold_left filter].
    assert (Hstep : load_userFailures (recordEndpoint t r) =
                    if userOperationFailed r
                    then wrap_uint64 (load_userFailures t + 1)
                    else load_userFailures t).
    { unfold recordEndpoint, userOperationFailed, endpointFailed.
      destruct (endpoint_err r); cbn [andb load_userFailures];
        reflexivity. }
    destruct (userOperationFailed r); cbn [List.length].
    + rewrite IH by (rewrite Hstep; apply wrap_uint64_range).
      rewrite Hstep, Nat2Z.inj_succ, wrap_uint64_add_l. f_equal. lia.
    + rewrite IH by (rewrite Hstep; exact Ht). rewrite Hstep. reflexivity.
Qed.

Lemma filter_length_le {A : Type} (f : A -> bool) (l : list A) :
  (List.length (filter f l) <= List.length l)%nat.
Proof.
  induction l as [| x rest IH]; [apply Nat.le_refl |].
  cbn [filter]. destruct (f x); cbn [List.length]; lia.
Qed.

(** X25. The load test counts every call once, as a success or as a
    failure: after a run the total is the number of calls and equals the
    successes plus the failures, the successes and the failures are the
    numbers of calls that returned no error and an error, and the user
    failures are the failed calls of [CreateUser] and [GetUser].  Only the
    calls that succeeded add their time to the cumulative latency, which is
    the sum of their times (wrapped to an [int64]).  The average latency
    printed at the end is that sum divided, with truncation, by the number
    of successes; the division panics exactly when every call of the run
    failed (or none was made). *)
Theorem load_test_accounting (rs : list EndpointResult) :
  Z.of_nat (List.length rs) <= max_int ->
  let t := recordEndpoints LoadTally0 rs in
  let n := Z.of_nat (List.length (succeededCalls rs)) in
  load_totalRequests t = Z.of_nat (List.length rs) /\
  load_totalRequests t = load_successfulRequests t + load_failedRequests t /\
  load_successfulRequests t = n /\
  load_failedRequests t = Z.of_nat (List.length (filter endpointFailed rs)) /\
  load_userFailures t =
  Z.of_nat (List.length (filter userOperationFailed rs)) /\
  load_totalLatency t = wrap_int (successLatency rs) /\
  averageLatency t =
  (if n =? 0 then None
   else Some (Z.quot (wrap_int (successLatency rs)) n)) /\
  (in_int (successLatency rs) -> 0 < n ->
   averageLatency t = Some (Z.quot (successLatency rs) n)) /\
  (averageLatency t = None <-> forallb endpointFailed rs = true).
Proof.
  intros Hlen t n. subst t n. unfold succeededCalls.
  destruct (recordEndpoints_counts rs LoadTally0) as (Et & Es & Ef);
    try (cbn; unfold_ints; lia).
  pose proof (recordEndpoints_latency rs LoadTally0) as El.
  pose proof (recordEndpoints_userFailures rs LoadTally0) as Eu.
  cbn [LoadTally0 load_totalRequests load_successfulRequests
       load_failedRequests load_totalLatency load_userFailures]
    in Et, Es, Ef, El, Eu.
  rewrite Z.add_0_l in Et, Es, Ef, El, Eu.
  specialize (El ltac:(unfold_ints; lia)).
  specialize (Eu ltac:(unfold_ints; lia)).
  assert (Hsplit : (List.length (filter (fun r => negb (endpointFailed r)) rs) +
                    List.length (filter endpointFailed rs) = List.length rs)%nat).
  { clear. induction rs as [| r rest IH]; [reflexivity |].
    cbn [filter]. destruct (endpointFailed r); cbn [negb List.length]; lia. }
  pose proof (filter_length_le userOperationFailed rs) as Hu.
  rewrite wrap_uint64_id in Et, Es, Ef, Eu by (unfold_ints; lia).
  assert (Hnone : List.length (filter (fun r => negb (endpointFailed r)) rs) = 0%nat
                  <-> forallb endpointFailed rs = true).
  { clear. induction rs as [| r rest IH]; [cbn; tauto |].
    cbn [filter forallb]. destruct (endpointFailed r); cbn [negb andb List.length].
    - exact IH.
    - split; [lia | discriminate]. }
  assert (Havg :
    averageLatency (recordEndpoints LoadTally0 rs) =
    (if Z.of_nat (List.length (filter (fun r => negb (endpointFailed r)) rs))
        =? 0
     then None
     else Some (Z.quot (wrap_int (successLatency rs))
                  (Z.of_nat
                     (List.length
                        (filter (fun r => negb (endpointFailed r)) rs)))))).
  { unfold averageLatency. rewrite Es, El.
    rewrite (wrap_int_id (Z.of_nat _)) by (unfold_ints; lia).
    destruct (Z.eqb_spec
                (Z.of_nat (List.length
                             (filter (fun r => negb (endpointFailed r)) rs))) 0)
      as [Hzero | Hnonzero]; [reflexivity |].
    f_equal. apply wrap_int_id. apply quot_in_int; [apply wrap_int_range | lia]. }
  split; [exact Et |]. split; [rewrite Et, Es, Ef; lia |].
  split; [exact Es |]. split; [exact Ef |]. split; [exact Eu |].
  split; [exact El |]. split; [exact Havg |]. split.
  - intros Hin Hpos. rewrite Havg.
    destruct (Z.eqb_spec
                (Z.of_nat (List.length
                             (filter (fun r => negb (endpointFailed r)) rs))) 0)
      as [Hzero | Hnonzero]; [lia |].
    rewrite wrap_int_id by exact Hin. reflexivity.
  - rewrite Havg.
    destruct (Z.eqb_spec
                (Z.of_nat (List.length
                             (filter (fun r => negb (endpointFailed r)) rs))) 0)
      as [Hzero | Hnonzero].
    + split; [intros _ | reflexivity]. apply Hnone. lia.
    + split; [discriminate |]. intros Hall. apply Hnone in Hall. lia.
Qed.

Lemma load_test_accounting_witness :
  let rs :=
    [ {| endpoint_name := "ServiceMetrics";
         endpoint_err := None;
         endpoint_latency := 1200000 |};
      {| endpoint_name := "CreateUser";
         endpoint_err := Some (ErrFormatted "create user failed: too many active database connections");
         endpoint_latency := 700000 |};
      {| endpoint_name := "KafkaMetrics";
         endpoint_err := Some (ErrDriver "rpc error: code = Unavailable");
         endpoint_latency := 900000 |};
      {| endpoint_name := "GetUser";
         endpoint_err := None;
         endpoint_latency := 800001 |} ] in
  let t := recordEndpoints LoadTally0 rs in
  load_totalRequests t = 4 /\
  load_totalRequests t = load_successfulRequests t + load_failedRequests t /\
  load_successfulRequests t = 2 /\
  load_failedRequests t = 2 /\
  load_userFailures t = 1 /\
  load_totalLatency t = 2000001 /\
  averageLatency t = Some 1000000 /\
  (in_int (successLatency rs) -> 0 < 2 ->
   averageLatency t = Some 1000000) /\
  (averageLatency t = None <-> forallb endpointFailed rs = true).
Proof.
  intros rs.
  apply (load_test_accounting rs).
  unfold max_int. simpl. lia.
Defined.

(** ** The monitoring service over a sequence of calls *)

Lemma newPool_10_wf : wf_DBPool (newPool 10).
Proof. unfold wf_DBPool, in_int, min_int, max_int. simpl. lia. Qed.

Lemma handle_step (s : server) (r : Request) :
  userPool s = newPool 10 -> orderPool s = newPool 10 ->
  userPool (handle s r) = newPool 10 /\
  orderPool (handle s r) = newPool 10 /\
  orderService (handle s r) = orderService s /\
  userService (handle s r) = applyUpdates (userService s) (requestUpdates r).
Proof.
  intros Huser Horder.
  assert (Hwfu : wf_DBPool (userPool s)) by (rewrite Huser; apply newPool_10_wf).
  assert (Hwfo : wf_DBPool (orderPool s)) by (rewrite Horder; apply newPool_10_wf).
  destruct r as [req env | req env | req env | req]; cbn [handle requestUpdates].
  - destruct (CreateUser_pools s req env Hwfu) as [Hu Ho].
    destruct (CreateUser_counters s req env) as [Hc Hoc].
    rewrite Hu, Ho, Hc, Hoc, Huser, Horder. auto.
  - destruct (GetUser_pools s req env Hwfu) as [Hu Ho].
    destruct (GetUser_counters s req env) as [Hc Hoc].
    rewrite Hu, Ho, Hc, Hoc, Huser, Horder. auto.
  - rewrite (GetDatabaseMetrics_server s req env Hwfu Hwfo). auto.
  - auto.
Qed.

Lemma serve_updates (rs : list Request) :
  forall s : server,
    userPool s = newPool 10 -> orderPool s = newPool 10 ->
    userPool (serve s rs) = newPool 10 /\
    orderPool (serve s rs) = newPool 10 /\
    orderService (serve s rs) = orderService s /\
    userService (serve s rs) =
    applyUpdates (userService s) (flat_map requestUpdates rs).
Proof.
  unfold serve. induction rs as [| r rest IH]; intros s Huser Horder.
  - cbn. auto.
  - cbn [fold_left flat_map].
    destruct (handle_step s r Huser Horder) as (Hu & Ho & Hos & Hus).
    destruct (IH (handle s r) Hu Ho) as (Hu' & Ho' & Hos' & Hus').
    rewrite Hu', Ho', Hos', Hus', Hos, Hus.
    unfold applyUpdates. rewrite fold_left_app. auto.
Qed.

Lemma updateOf_newPool_succeeded (A : Type) (env : TxEnv A) :
  succeeded (updateOf (newPool 10) env) = answered env.
Proof.
  unfold updateOf, outcomeOf, answered, BeginTx.
  rewrite (admission_granted (newPool 10) newPool_10_wf) by (simpl; lia).
  destruct (env_begun env) as [tx | e]; [| reflexivity].
  destruct (env_scanned env) as [row | e]; reflexivity.
Qed.

Lemma requestUpdates_counts (rs : list Request) :
  successes (flat_map requestUpdates rs) =
  Z.of_nat (List.length (filter userCallAnswered rs)) /\
  failures (flat_map requestUpdates rs) =
  Z.of_nat (List.length (filter userCallFailed rs)) /\
  Z.of_nat (List.length (flat_map requestUpdates rs)) =
  Z.of_nat (List.length (filter userCall rs)).
Proof.
  induction rs as [| r rest (IHs & IHf & IHl)]; [repeat split |].
  destruct r as [req env | req env | req env | req];
    cbn [flat_map requestUpdates app filter userCallAnswered userCallFailed
         userCall];
    rewrite ?successes_cons, ?failures_cons, ?updateOf_newPool_succeeded;
    try (destruct (answered env)); cbn [negb List.length];
    rewrite ?Nat2Z.inj_succ; repeat split; lia.
Qed.

(** X26. Calls served one after the other by the server [main] builds.
    After any sequence of [CreateUser], [GetUser], [GetDatabaseMetrics] and
    [GetServiceMetrics] calls both pools are back at no active session, and
    the counters of the user service hold the number of [CreateUser] and
    [GetUser] calls, the number of those the database answered and the
    number of those it did not (the pool is never exhausted on the way).
    No call feeds the counters of the order service: [GetServiceMetrics]
    reports them as zero, with NaN as average latency. *)
Theorem serve_counts_user_calls (rs : list Request) :
  Z.of_nat (List.length rs) <= max_uint64 ->
  let s := serve newServer rs in
  userPool s = newPool 10 /\ orderPool s = newPool 10 /\
  totalRequests (userService s) = Z.of_nat (List.length (filter userCall rs)) /\
  successfulRequests (userService s) =
  Z.of_nat (List.length (filter userCallAnswered rs)) /\
  failedRequests (userService s) =
  Z.of_nat (List.length (filter userCallFailed rs)) /\
  GetServiceMetrics s {| pb.ServiceName := "order" |} =
  (Some {| pb.TotalRequests := 0; pb.SuccessfulRequests := 0;
           pb.FailedRequests := 0; pb.AverageLatencyMs := S754_nan |}, None).
Proof.
  intros Hlen s. subst s.
  destruct (serve_updates rs newServer eq_refl eq_refl) as (Hu & Ho & Hos & Hus).
  assert (Hwf0 : wf_Metrics Metrics0).
  { unfold wf_Metrics, Metrics0. unfold_ints. simpl. lia. }
  destruct (applyUpdates_counts (flat_map requestUpdates rs) Metrics0 Hwf0)
    as (Et & Es & Ef).
  destruct (requestUpdates_counts rs) as (Hs & Hf & Hl).
  cbn [newServer userService orderService] in Hus, Hos.
  cbn [Metrics0 totalRequests successfulRequests failedRequests] in Et, Es, Ef.
  assert (Hbound : forall f : Request -> bool,
             Z.of_nat (List.length (filter f rs)) <= Z.of_nat (List.length rs)).
  { intros f. apply Nat2Z.inj_le. apply filter_length_le. }
  pose proof (Hbound userCall). pose proof (Hbound userCallAnswered).
  pose proof (Hbound userCallFailed).
  rewrite Hus, Et, Es, Ef, Hs, Hf, Hl.
  rewrite !wrap_uint64_id by (unfold_ints; lia).
  split; [exact Hu |]. split; [exact Ho |].
  split; [lia |]. split; [lia |]. split; [lia |].
  unfold GetServiceMetrics. cbn [pb.ServiceName String.eqb Ascii.eqb Bool.eqb].
  rewrite Hos. reflexivity.
Qed.

Lemma serve_counts_user_calls_witness :
  let rs :=
    [ CallCreateUser {| pb.Name := "Alice"; pb.Email := "alice@example.com" |}
        {| env_begun := inl (TxHandle 1); env_scanned := inl 1;
           env_elapsed := 4; env_ended := None |};
      CallGetUser {| pb.GetUser_UserId := 1 |}
        {| env_begun := inl (TxHandle 2);
           env_scanned := inl ("Alice", "alice@example.com");
           env_elapsed := 2; env_ended := None |};
      CallGetServiceMetrics {| pb.ServiceName := "user" |};
      CallGetUser {| pb.GetUser_UserId := 999 |}
        {| env_begun := inl (TxHandle 3);
           env_scanned := inr (ErrDriver "sql: no rows in result set");
           env_elapsed := 2; env_ended := None |} ] in
  let s := serve newServer rs in
  userPool s = newPool 10 /\ orderPool s = newPool 10 /\
  totalRequests (userService s) = 3 /\
  successfulRequests (userService s) = 2 /\
  failedRequests (userService s) = 1 /\
  GetServiceMetrics s {| pb.ServiceName := "order" |} =
  (Some {| pb.TotalRequests := 0; pb.SuccessfulRequests := 0;
           pb.FailedRequests := 0; pb.AverageLatencyMs := S754_nan |}, None).
Proof.
  intros rs.
  apply (serve_counts_user_calls rs).
  unfold max_uint64. simpl. lia.
Defined.
